(** * Linux evdev input platform of arcan ([src/platform/linux/event.c])

    A shallow embedding of the axis filter, the device registry, the device
    classifier and the keyboard, mouse and game-controller decoders.

    Conventions of the embedding:
    - C [int], [int16_t], [unsigned short] values are [Z]; the conversions the
      C code performs on assignment ([int] to [int16_t], [int] to [uint16_t])
      are written out with [wrap16] and [wrapu16];
    - fixed arrays ([flt_kernel[64]], [hats[16]]) are total functions from
      the index to the value, updated with [upd];
    - file descriptors closed by an operation are returned in a list, events
      handed to [arcan_event_enqueue] are returned in a list, in order. *)

From Stdlib Require Import ZArith List Bool Lia.
From Stdlib Require String.
Import ListNotations.
Open Scope Z_scope.

(** Signed 16-bit wrap-around of a C conversion to [int16_t]. *)
Definition wrap16 (z : Z) : Z := (z + 32768) mod 65536 - 32768.

(** Unsigned 16-bit wrap-around of a C conversion to [uint16_t]. *)
Definition wrapu16 (z : Z) : Z := z mod 65536.

(** Unsigned 32-bit wrap-around of an [unsigned] store. *)
Definition wrapu32 (z : Z) : Z := z mod 2 ^ 32.

Definition is_int16 (z : Z) : Prop := -32768 <= z <= 32767.

(** Array update [a[i] = v]. *)
Definition upd (a : Z -> Z) (i v : Z) : Z -> Z :=
  fun j => if Z.eq_dec j i then v else a j.

(** ** The axis filter: [struct axis_opts], [process_axis], [set_analogstate] *)
Module AxisFilter.

(** [enum ARCAN_ANALOGFILTER_KIND]; the zero value is [NONE]. *)
Inductive filter_kind := ANALOGFILTER_NONE | ANALOGFILTER_PASS
  | ANALOGFILTER_AVG | ANALOGFILTER_ALAST.

Definition filter_kind_eqb (a b : filter_kind) : bool :=
  match a, b with
  | ANALOGFILTER_NONE, ANALOGFILTER_NONE
  | ANALOGFILTER_PASS, ANALOGFILTER_PASS
  | ANALOGFILTER_AVG, ANALOGFILTER_AVG
  | ANALOGFILTER_ALAST, ANALOGFILTER_ALAST => true
  | _, _ => false
  end.

(** [struct axis_opts]. *)
Record axis_opts := mk_axis {
  mode : filter_kind;
  oldmode : filter_kind;
  lower : Z; upper : Z; deadzone : Z;
  inlzone : bool; inuzone : bool; indzone : bool;
  kernel_sz : Z;
  kernel_ofs : Z;
  flt_kernel : Z -> Z
}.

(** A zero-filled [struct axis_opts] (memset / zero-initialised union). *)
Definition zero_axis : axis_opts :=
  mk_axis ANALOGFILTER_NONE ANALOGFILTER_NONE 0 0 0 false false false 0 0
    (fun _ => 0).

Definition set_indzone (d : axis_opts) (b : bool) : axis_opts :=
  mk_axis (mode d) (oldmode d) (lower d) (upper d) (deadzone d)
    (inlzone d) (inuzone d) b (kernel_sz d) (kernel_ofs d) (flt_kernel d).

Definition set_edges (d : axis_opts) (l u : bool) : axis_opts :=
  mk_axis (mode d) (oldmode d) (lower d) (upper d) (deadzone d)
    l u (indzone d) (kernel_sz d) (kernel_ofs d) (flt_kernel d).

Definition with_kernel (d : axis_opts) (ofs : Z) (k : Z -> Z) : axis_opts :=
  mk_axis (mode d) (oldmode d) (lower d) (upper d) (deadzone d)
    (inlzone d) (inuzone d) (indzone d) (kernel_sz d) ofs k.

Definition with_mode (d : axis_opts) (m : filter_kind) : axis_opts :=
  mk_axis m (oldmode d) (lower d) (upper d) (deadzone d)
    (inlzone d) (inuzone d) (indzone d) (kernel_sz d) (kernel_ofs d)
    (flt_kernel d).

(** [for (int i = 0; i < n; i++) tot += k[i];] (the [int32_t] total of at
    most 64 [int16_t] samples does not overflow). *)
Fixpoint ksum_nat (k : Z -> Z) (n : nat) : Z :=
  match n with
  | O => 0
  | S n' => ksum_nat k n' + k (Z.of_nat n')
  end.

Definition ksum (k : Z -> Z) (n : Z) : Z := ksum_nat k (Z.to_nat n).

(** Lines 268-278: the deadzone quickfilter.  [None] is [return false]. *)
Definition deadzone_stage (d : axis_opts) (samplev : Z)
  : option (axis_opts * Z) :=
  if Z.abs samplev <? deadzone d then
    if indzone d then None else Some (set_indzone d true, 0)
  else Some (set_indzone d false, samplev).

(** Lines 280-300: the controller edge-noise quickfilter; the bound, an
    [int], is stored into the [int16_t] sample. *)
Definition edge_stage (d : axis_opts) (samplev : Z) : option (axis_opts * Z) :=
  if samplev <? lower d then
    if inlzone d then None else Some (set_edges d true false, wrap16 (lower d))
  else if upper d <? samplev then
    if inuzone d then None else Some (set_edges d false true, wrap16 (upper d))
  else Some (set_edges d false false, samplev).

(** Lines 302-326: the rolling kernel. *)
Definition kernel_stage (d : axis_opts) (samplev : Z) : axis_opts * option Z :=
  let k := upd (flt_kernel d) (kernel_ofs d) samplev in
  let ofs := kernel_ofs d + 1 in
  if ofs <? kernel_sz d then (with_kernel d ofs k, None)
  else
    let out :=
      if 1 <? kernel_sz d then
        match mode d with
        | ANALOGFILTER_ALAST => wrap16 (k (kernel_sz d - 1))
        | _ =>
            let tot := ksum k (kernel_sz d) in
            if negb (tot =? 0) then wrap16 (Z.quot tot (kernel_sz d)) else 0
        end
      else samplev in
    (with_kernel d 0 k, Some out).

(** The two quickfilters of lines 268-300 in sequence: the state after them
    and the sample that reaches the kernel, if any. *)
Definition prefilter (d : axis_opts) (samplev : Z) : axis_opts * option Z :=
  match deadzone_stage d samplev with
  | None => (d, None)
  | Some (d1, s1) =>
      match edge_stage d1 s1 with
      | None => (d1, None)
      | Some (d2, s2) => (d2, Some s2)
      end
  end.

(** [process_axis]: the new axis state and [Some *outv] when it returns
    true. *)
Definition process_axis (d : axis_opts) (samplev : Z) : axis_opts * option Z :=
  match mode d with
  | ANALOGFILTER_NONE => (d, None)
  | ANALOGFILTER_PASS => (d, Some samplev)
  | _ =>
      match prefilter d samplev with
      | (d1, None) => (d1, None)
      | (d1, Some s) => kernel_stage d1 s
      end
  end.

(** [set_analogstate]. *)
Definition set_analogstate (d : axis_opts) (lower_bound upper_bound dz
  kernel_size : Z) (m : filter_kind) : axis_opts :=
  mk_axis m (oldmode d) lower_bound upper_bound dz (inlzone d) (inuzone d)
    (indzone d) kernel_size 0 (flt_kernel d).

(** The body of [platform_event_analogfilter] once [find_axis] has found the
    axis: the kernel size is clamped to [1, 64]. *)
Definition analogfilter_axis (d : axis_opts) (lower_bound upper_bound dz
  buffer_sz : Z) (kind : filter_kind) : axis_opts :=
  let kernel_lim := 64 in
  let buffer_sz := if kernel_lim <? buffer_sz then kernel_lim else buffer_sz in
  let buffer_sz := if buffer_sz <=? 0 then 1 else buffer_sz in
  set_analogstate d lower_bound upper_bound dz buffer_sz kind.

(** One axis of [map_axes] (lines 602-615): a zeroed axis in [AVG] mode with
    the signed 16-bit range, or the range of [EVIOCGABS] when it answers
    ([Some (minimum, maximum)]). *)
Definition map_axes_axis (absinfo : option (Z * Z)) : axis_opts :=
  let ax := mk_axis ANALOGFILTER_AVG ANALOGFILTER_AVG (-32768) 32767 0
              false false false 0 0 (fun _ => 0) in
  match absinfo with
  | None => ax
  | Some (mn, mx) =>
      mk_axis ANALOGFILTER_AVG ANALOGFILTER_AVG mn mx 0
        false false false 0 0 (fun _ => 0)
  end.

(** Samples fed one after the other; one entry per sample. *)
Fixpoint feed (d : axis_opts) (vs : list Z) : axis_opts * list (option Z) :=
  match vs with
  | [] => (d, [])
  | v :: r =>
      let (d1, o) := process_axis d v in
      let (d2, os) := feed d1 r in
      (d2, o :: os)
  end.

(** The samples that reach the kernel, one entry per sample fed. *)
Fixpoint accepted (d : axis_opts) (vs : list Z) : list (option Z) :=
  match vs with
  | [] => []
  | v :: r => let (d1, o) := prefilter d v in o :: accepted d1 r
  end.

(** The spec's averaging filter: an output once per [K] accepted samples,
    the truncated mean of them ([buf] holds the batch so far). *)
Fixpoint avg_trace (K : Z) (buf : list Z) (acc : list (option Z))
  : list (option Z) :=
  match acc with
  | [] => []
  | None :: r => None :: avg_trace K buf r
  | Some s :: r =>
      let buf' := buf ++ [s] in
      if Z.of_nat (length buf') =? K
      then Some (Z.quot (fold_left Z.add buf' 0) K) :: avg_trace K [] r
      else None :: avg_trace K buf' r
  end.

(** Filter-configuration and sampling calls on one axis. *)
Inductive axis_call :=
  | Configure (lower_bound upper_bound dz buffer_sz : Z) (kind : filter_kind)
  | Sample (v : Z).

Definition axis_step (d : axis_opts) (c : axis_call) : axis_opts :=
  match c with
  | Configure l u dz b k => analogfilter_axis d l u dz b k
  | Sample v => fst (process_axis d v)
  end.

Definition run_calls (d : axis_opts) (cs : list axis_call) : axis_opts :=
  fold_left axis_step cs d.

(** A sample inside the band: at or beyond the deadzone and within the
    bounds. *)
Definition in_band (d : axis_opts) (v : Z) : Prop :=
  deadzone d <= Z.abs v /\ lower d <= v <= upper d.

(** Lines 280-326 of [process_axis]: the edge quickfilter then the kernel. *)
Definition edge_then_kernel (d : axis_opts) (samplev : Z)
  : axis_opts * option Z :=
  match edge_stage d samplev with
  | None => (d, None)
  | Some (d2, s2) => kernel_stage d2 s2
  end.

(** The kernel offset stays below the kernel size, a size of 0 (the zeroed
    state) counting as 1, and the size stays within the 64-entry array. *)
Definition kernel_inv (d : axis_opts) : Prop :=
  0 <= kernel_sz d <= 64 /\ 0 <= kernel_ofs d < Z.max 1 (kernel_sz d).

End AxisFilter.

(** ** Devices and the registry: [struct arcan_devnode], [iodev],
    [lookup_devnode], [got_device], [find_axis],
    [platform_event_analogstate] *)
Module Registry.
Import AxisFilter.

(** Constants of [linux/input.h]. *)
Definition EV_KEY := 1.
Definition EV_REL := 2.
Definition EV_ABS := 3.
Definition EV_MAX := 31.
Definition KEY_MAX := 767.
Definition ABS_MAX := 63.
Definition BTN_MOUSE := 272.
Definition BTN_LEFT := 272.
Definition BTN_RIGHT := 273.
Definition BTN_MIDDLE := 274.
Definition BTN_JOYSTICK := 288.
Definition BTN_GAMEPAD := 304.
Definition BTN_WHEEL := 336.
Definition REL_X := 0.
Definition REL_Y := 1.
Definition POLLIN := 1.

Definition MAX_DEVICES := 256.

(** Modelled from the spec: [enum devnode_type] of [device_db.h], which is
    not among the sources; the spec's classes Sensor, GameController, Mouse,
    Touch, Keyboard and Unclassified, the first one being the value of a
    zero-filled slot. *)
Inductive devnode_type := DEVNODE_SENSOR | DEVNODE_GAME | DEVNODE_MOUSE
  | DEVNODE_TOUCH | DEVNODE_KEYBOARD | DEVNODE_MISSING.

(** The decoders a [struct evhandler] can point to. *)
Inductive handler_fn := defhandler_kbd | defhandler_mouse | defhandler_game
  | defhandler_null.

(** Modelled from the spec: [defhandlers[]] of [device_db.h] (not among the
    sources), the decoder bound to each class; sensor, touch and
    unclassified devices are drained without decoding. *)
Definition defhandlers (t : devnode_type) : handler_fn :=
  match t with
  | DEVNODE_KEYBOARD => defhandler_kbd
  | DEVNODE_MOUSE => defhandler_mouse
  | DEVNODE_GAME => defhandler_game
  | _ => defhandler_null
  end.

(** [struct evhandler] (declared in [device_db.h]): [handler] is [None] for
    a NULL handler. *)
Record evhandler := mk_evhandler {
  handler : option handler_fn;
  etype : devnode_type;
  button_mask : Z;
  axis_mask : Z;
  digital_hat : bool
}.

Definition zero_evhandler : evhandler :=
  mk_evhandler None DEVNODE_SENSOR 0 0 false.

(** The [game] and [cursor] members of the union of [struct arcan_devnode].
    The members are kept apart: the storage the C union shares between them
    is not modelled.  In C, [map_axes] stores the [game.adata] pointer of a
    device with absolute axes before the class is decided, and that pointer
    overlaps the [cursor.flt[0]] of a mouse ([kernel_sz] and the zone flags)
    and the [sensor.data] of a sensor ([kernel_sz] and [kernel_ofs]); here
    those axes start zeroed instead. *)
Record game_state := mk_game {
  axes : Z;
  hats : Z -> Z;
  adata : list axis_opts
}.

Record cursor_state := mk_cursor {
  mx : Z; my : Z;
  flt0 : axis_opts; flt1 : axis_opts
}.

Definition zero_game : game_state := mk_game 0 (fun _ => 0) [].
Definition zero_cursor : cursor_state := mk_cursor 0 0 zero_axis zero_axis.

(** [struct arcan_devnode]. *)
Record devnode := mk_node {
  handle : Z;
  hnd : evhandler;
  label : String.string;
  devnum : Z;
  button_count : Z;
  dtype : devnode_type;
  sensor : axis_opts;
  game : game_state;
  cursor : cursor_state;
  kbd_state : Z
}.

Definition zero_node : devnode :=
  mk_node 0 zero_evhandler String.EmptyString 0 0 DEVNODE_SENSOR zero_axis
    zero_game zero_cursor 0.

Definition set_handle (n : devnode) (fd : Z) : devnode :=
  mk_node fd (hnd n) (label n) (devnum n) (button_count n) (dtype n)
    (sensor n) (game n) (cursor n) (kbd_state n).

(** The process-wide [iodev]; [sz_nodes] is the length of [nodes], and
    [pollset] holds [(fd, events)] pairs. *)
Record iodev_state := mk_iodev {
  n_devs : Z;
  mouseid : Z;
  nodes : list devnode;
  pollset : list (Z * Z)
}.

Definition empty_iodev : iodev_state := mk_iodev 0 0 [] [].

(** [a[i] = x] on a list (no effect beyond its end). *)
Fixpoint list_set {A : Type} (l : list A) (i : nat) (x : A) : list A :=
  match l, i with
  | [], _ => []
  | _ :: r, O => x :: r
  | y :: r, S i' => y :: list_set r i' x
  end.

(** The linear scan of [lookup_devnode]: the first [i < n] with
    [nodes[i].devnum == devid]. *)
Fixpoint scan_devnum (ns : list devnode) (i : nat) (n : nat) (devid : Z)
  : option nat :=
  match ns, n with
  | [], _ | _, O => None
  | x :: r, S n' =>
      if devnum x =? devid then Some i else scan_devnum r (S i) n' devid
  end.

(** [lookup_devnode]: the slot index the returned pointer points to. *)
Definition lookup_devnode (io : iodev_state) (devid : Z) : option nat :=
  let devid := if devid <? 0 then mouseid io else devid in
  if devid <? n_devs io then Some (Z.to_nat devid)
  else scan_devnum (nodes io) 0 (Z.to_nat (n_devs io)) devid.

(** Outcome of the slot loop of [got_device] (lines 740-758). *)
Inductive slot_result := Reconnect (i : nat) | Fresh (hole : option nat).

Fixpoint find_slot (ns : list devnode) (i : nat) (hole : option nat)
  (dn : Z) : slot_result :=
  match ns with
  | [] => Fresh hole
  | x :: r =>
      if (match hole with None => true | Some _ => false end) &&
         (handle x <=? 0)
      then find_slot r (S i) (Some i) dn
      else if devnum x =? dn then Reconnect i
      else find_slot r (S i) hole dn
  end.

(** Lines 739-795 of [got_device]: reconnect or add [node], with the
    descriptors closed on the way.  [grow_ok] tells whether the two
    [realloc] calls that grow the tables succeed; when one fails the code
    goes to [cleanup], which closes [fd] (a failure of the second leaves
    [iodev.nodes] grown but [sz_nodes] unchanged, so no slot is added). *)
Definition register_node (io : iodev_state) (fd : Z) (node : devnode)
  (grow_ok : bool) : iodev_state * list Z :=
  match find_slot (nodes io) 0 None (devnum node) with
  | Reconnect i =>
      let old := nth i (nodes io) zero_node in
      let closed := if 0 <? handle old then [handle old] else [] in
      (mk_iodev (n_devs io) (mouseid io)
         (list_set (nodes io) i (set_handle old fd))
         (list_set (pollset io) i (fd, POLLIN)), closed)
  | Fresh hole =>
      let add ns ps h :=
        (mk_iodev (n_devs io + 1) (mouseid io) (list_set ns h node)
           (list_set ps h (fd, POLLIN)), []) in
      match hole with
      | Some h => add (nodes io) (pollset io) h
      | None =>
          if grow_ok
          then add (nodes io ++ repeat zero_node 8)
                 (pollset io ++ repeat (0, 0) 8) (length (nodes io))
          else (io, [fd])
      end
  end.

(** What the kernel answers to the probes of [got_device], [identify],
    [button_count], [check_mouse_axis] and [map_axes]: [None] for a failing
    ioctl; [identify] is taken through its result (label and 16-bit
    identity); [override] is the entry of [lookup_dev_handler] (declared in
    [device_db.h]) for the label when its handler is not NULL; [alloc_ok]
    is whether [realloc] grants the growth of the tables, when one is
    needed. *)
Record probe := mk_probe {
  fstat_ok : bool;
  is_chr_or_blk : bool;
  ident : option (String.string * Z);
  evbits : option Z;
  keybits : option Z;
  relbits : option Z;
  absbits : option Z;
  absinfo : Z -> option (Z * Z);
  override : option evhandler;
  alloc_ok : bool
}.

Fixpoint count_bits (bits : Z) (n : nat) : Z :=
  match n with
  | O => 0
  | S n' => count_bits bits n' + (if Z.testbit bits (Z.of_nat n') then 1 else 0)
  end.

(** [button_count]: the count and the mouse and joystick signatures; on a
    failing ioctl it returns 0 and leaves both flags as they were
    (false). *)
Definition button_count_fn (kb : option Z) : Z * bool * bool :=
  match kb with
  | None => (0, false, false)
  | Some bits =>
      (count_bits bits (Z.to_nat KEY_MAX),
       Z.testbit bits BTN_MOUSE || Z.testbit bits BTN_LEFT ||
       Z.testbit bits BTN_RIGHT || Z.testbit bits BTN_MIDDLE,
       Z.testbit bits BTN_JOYSTICK || Z.testbit bits BTN_GAMEPAD ||
       Z.testbit bits BTN_WHEEL)
  end.

(** [check_mouse_axis]. *)
Definition check_mouse_axis (rb : option Z) : bool :=
  match rb with
  | None => false
  | Some bits => Z.testbit bits REL_X && Z.testbit bits REL_Y
  end.

Fixpoint set_abs_axes (bits : Z) (ai : Z -> option (Z * Z)) (n : nat)
  : list axis_opts :=
  match n with
  | O => []
  | S n' =>
      set_abs_axes bits ai n' ++
      (if Z.testbit bits (Z.of_nat n')
       then [map_axes_axis (ai (Z.of_nat n'))] else [])
  end.

(** [map_axes] on a fresh node: the axis count and one filter per axis. *)
Definition map_axes (ab : option Z) (ai : Z -> option (Z * Z)) : game_state :=
  match ab with
  | None => zero_game
  | Some bits =>
      let n := count_bits bits (Z.to_nat ABS_MAX) in
      if n =? 0 then mk_game 0 (fun _ => 0) []
      else mk_game n (fun _ => 0) (set_abs_axes bits ai (Z.to_nat ABS_MAX))
  end.

(** The [EV_KEY] case of the capability loop of [got_device]: button count,
    mouse and joystick button signatures. *)
Definition key_caps (p : probe) (ev : Z) : Z * bool * bool :=
  if Z.testbit ev EV_KEY then button_count_fn (keybits p) else (0, false, false).

(** The [EV_REL] case: [mouse_ax]. *)
Definition rel_caps (p : probe) (ev : Z) : bool :=
  if Z.testbit ev EV_REL then check_mouse_axis (relbits p) else false.

(** Lines 660-737 of [got_device]: the node as classified, and whether it
    is the first mouse (the one that sets [iodev.mouseid]). *)
Definition classify_node (fd : Z) (p : probe) (lbl : String.string) (dn : Z)
  (ev : Z) : devnode * bool :=
  let '(bc, mouse_btn, joystick_btn) := key_caps p ev in
  let mouse_ax := rel_caps p ev in
  let g := if Z.testbit ev EV_ABS then map_axes (absbits p) (absinfo p)
           else zero_game in
  match override p with
  | None =>
      if mouse_ax && mouse_btn then
        (mk_node fd (mk_evhandler (Some (defhandlers DEVNODE_MOUSE))
                       DEVNODE_SENSOR 0 0 false)
           lbl dn bc DEVNODE_MOUSE zero_axis g
           (mk_cursor 0 0 (with_mode zero_axis ANALOGFILTER_PASS)
                          (with_mode zero_axis ANALOGFILTER_PASS)) 0, true)
      else if negb mouse_btn && negb joystick_btn && (84 <? bc) then
        (mk_node fd (mk_evhandler (Some (defhandlers DEVNODE_KEYBOARD))
                       DEVNODE_SENSOR 0 0 false)
           lbl dn bc DEVNODE_KEYBOARD zero_axis g zero_cursor 0, false)
      else
        (mk_node fd (mk_evhandler (Some (defhandlers DEVNODE_GAME))
                       DEVNODE_SENSOR 0 0 false)
           lbl dn bc DEVNODE_GAME zero_axis g zero_cursor 0, false)
  | Some eh =>
      (mk_node fd eh lbl dn bc (etype eh) zero_axis g zero_cursor 0, false)
  end.

(** [got_device]: the new registry and the descriptors closed.  At the
    device limit (lines 647-650) [fd] is closed but the function goes on;
    the [EVIOCGBIT] probe that follows (line 675) is then made on the closed
    descriptor, fails with [EBADF], and the failure path closes [fd] a
    second time and returns (lines 675-680).  Modelled from the spec:
    [lookup_dev_handler], called in between, is the lookup of the spec's
    label override table ([device_db.h], not among the sources) and opens
    no descriptor that could reuse [fd]. *)
Definition got_device (io : iodev_state) (fd : Z) (p : probe)
  : iodev_state * list Z :=
  if negb (fstat_ok p) then (io, [])
  else if negb (is_chr_or_blk p) then (io, [])
  else match ident p with
  | None => (io, [fd])
  | Some (lbl, dn) =>
      if MAX_DEVICES <=? n_devs io then (io, [fd; fd])
      else match evbits p with
      | None => (io, [fd])
      | Some ev =>
          let '(node, is_mouse) := classify_node fd p lbl dn ev in
          let io1 :=
            if is_mouse && (mouseid io =? 0)
            then mk_iodev (n_devs io) dn (nodes io) (pollset io) else io in
          register_node io1 fd node (alloc_ok p)
      end
  end.

(** [enum arcan_errc] values returned by [platform_event_analogstate]. *)
Inductive arcan_errc := ARCAN_OK | ARCAN_ERRC_NO_SUCH_OBJECT
  | ARCAN_ERRC_BAD_RESOURCE.

(** The [switch] of [find_axis] on a node; [axisid] is the [unsigned]
    parameter. *)
Definition node_axis (n : devnode) (axisid : Z) : option axis_opts :=
  match dtype n with
  | DEVNODE_SENSOR => if axisid =? 0 then Some (sensor n) else None
  | DEVNODE_GAME =>
      if axisid <? axes (game n) then nth_error (adata (game n)) (Z.to_nat axisid)
      else None
  | DEVNODE_MOUSE =>
      if axisid =? 0 then Some (flt0 (cursor n))
      else if axisid =? 1 then Some (flt1 (cursor n)) else None
  | _ => None
  end.

(** [find_axis]: the axis, and [*outn].  A slot index at or beyond the end
    of [nodes] would be an out-of-bounds read in C; it is not reached while
    [n_devs] does not exceed the table length. *)
Definition find_axis (io : iodev_state) (devid axisid : Z)
  : option axis_opts * bool :=
  match lookup_devnode io devid with
  | None => (None, false)
  | Some i =>
      match nth_error (nodes io) i with
      | None => (None, true)
      | Some n => (node_axis n axisid, true)
      end
  end.

(** The five output parameters of [platform_event_analogstate]. *)
Definition analog_outs : Type := (Z * Z * Z * Z * filter_kind)%type.

(** [platform_event_analogstate]: the result and the output parameters,
    given their values before the call; the [int] axis index is converted to
    the [unsigned] of [find_axis]. *)
Definition platform_event_analogstate (io : iodev_state) (devid axisid : Z)
  (outs : analog_outs) : arcan_errc * analog_outs :=
  let uaxis := if axisid <? 0 then axisid + 4294967296 else axisid in
  match find_axis io devid uaxis with
  | (None, gotnode) =>
      (if gotnode then ARCAN_ERRC_BAD_RESOURCE else ARCAN_ERRC_NO_SUCH_OBJECT,
       outs)
  | (Some a, _) =>
      (ARCAN_OK, (lower a, upper a, deadzone a, kernel_sz a, mode a))
  end.


End Registry.

(** ** Event decoders: [decode_hat], [defhandler_game], [defhandler_kbd],
    [defhandler_mouse] *)
Module Decoders.
Import AxisFilter Registry.

Definition EV_KEY := 1.
Definition EV_REL := 2.
Definition EV_ABS := 3.
Definition ABS_HAT0X := 16.
Definition ABS_HAT3Y := 23.

(** [struct input_event], without its time stamp. *)
Record input_event := mk_ie { ie_type : Z; ie_code : Z; ie_value : Z }.

(** The fields of [arcan_event] each decoder path sets; fields a path does
    not set are not modelled. *)
Inductive event :=
  | EvDigital (devid subid : Z) (active : bool)
  | EvAnalog (devid subid : Z) (gotrel : bool) (axisval0 axisval1 : Z)
  | EvGameAxis (devid subid axisval0 : Z)
  | EvTranslated (devid scancode keysym modifiers subid : Z) (active : bool).

Definition set_hats (g : game_state) (h : Z -> Z) : game_state :=
  mk_game (axes g) h (adata g).

Definition set_adata (g : game_state) (a : list axis_opts) : game_state :=
  mk_game (axes g) (hats g) a.

(** [decode_hat]. *)
Definition decode_hat (g : game_state) (dn ind val : Z)
  : game_state * list event :=
  let ind := ind * 2 in
  let base := 64 in
  if val =? 0 then
    let '(h1, e1) :=
      if negb (hats g ind =? 0)
      then (upd (hats g) ind 0, [EvDigital dn (base + ind) false])
      else (hats g, []) in
    let '(h2, e2) :=
      if negb (h1 (ind + 1) =? 0)
      then (upd h1 (ind + 1) 0, [EvDigital dn (base + ind + 1) false])
      else (h1, []) in
    (set_hats g h2, e1 ++ e2)
  else
    let val := if val <? 0 then -1 else 1 in
    let ind := if 0 <? val then ind + 1 else ind in
    (set_hats g (upd (hats g) ind val), [EvDigital dn (base + ind) true]).

(** One record of [defhandler_game]; the [__u16] code is decremented in
    place by [BTN_JOYSTICK] (wrapping) before the mask test. *)
Definition game_record (h : evhandler) (dn : Z) (g : game_state)
  (r : input_event) : game_state * list event :=
  if ie_type r =? EV_KEY then
    let code := wrapu16 (ie_code r - BTN_JOYSTICK) in
    if negb (button_mask h =? 0) && (code <=? 64) && Z.testbit (button_mask h) code
    then (g, [])
    else (g, [EvDigital dn (code - BTN_JOYSTICK) (negb (ie_value r =? 0))])
  else if ie_type r =? EV_ABS then
    let code := ie_code r in
    if negb (axis_mask h =? 0) && (code <=? 64) && Z.testbit (axis_mask h) code
    then (g, [])
    else if digital_hat h && (ABS_HAT0X <=? code) && (code <=? ABS_HAT3Y)
    then decode_hat g dn (code - ABS_HAT0X) (ie_value r)
    else if code <? axes g then
      match nth_error (adata g) (Z.to_nat code) with
      | None => (g, [])
      | Some ax =>
          let '(ax', o) := process_axis ax (wrap16 (ie_value r)) in
          let g' := set_adata g (list_set (adata g) (Z.to_nat code) ax') in
          match o with
          | Some s => (g', [EvGameAxis dn code s])
          | None => (g', [])
          end
      end
    else (g, [])
  else (g, []).

(** [defhandler_game] on the records of one successful read. *)
Fixpoint defhandler_game (h : evhandler) (dn : Z) (g : game_state)
  (rs : list input_event) : game_state * list event :=
  match rs with
  | [] => (g, [])
  | r :: rs' =>
      let '(g1, e1) := game_record h dn g r in
      let '(g2, e2) := defhandler_game h dn g1 rs' in
      (g2, e1 ++ e2)
  end.

(** The keycode tables and constants the keyboard decoder consults
    ([klut], [lookup_keycode], [lookup_character] of [keycode_xlate.h], the
    [K_*] symbols and the [ARKMOD_*] modifier indices), which are outside
    the sources. *)
Record keytables := mk_keytables {
  klut : Z -> Z;
  K_LSHIFT : Z; K_RSHIFT : Z; K_LCTRL : Z; K_RCTRL : Z; K_CAPSLOCK : Z;
  ARKMOD_LSHIFT : Z; ARKMOD_RSHIFT : Z; ARKMOD_LCTRL : Z; ARKMOD_RCTRL : Z;
  ARKMOD_CAPS : Z;
  lookup_keycode : Z -> Z;
  lookup_character : Z -> Z -> Z
}.

(** The [switch] of [update_state]: the modifier of a key, if any. *)
Definition modifier_of (kt : keytables) (code : Z) : option Z :=
  let k := klut kt code in
  if k =? K_LSHIFT kt then Some (ARKMOD_LSHIFT kt)
  else if k =? K_RSHIFT kt then Some (ARKMOD_RSHIFT kt)
  else if k =? K_LCTRL kt then Some (ARKMOD_LCTRL kt)
  else if k =? K_RCTRL kt then Some (ARKMOD_RCTRL kt)
  else if k =? K_CAPSLOCK kt then Some (ARKMOD_CAPS kt)
  else None.

(** [update_state]: [*statev] is an [unsigned], so the stored value is
    kept to 32 bits.  [1 << modifier] is an [int] shift, defined in C for a
    modifier index in [0, 30] only; there it is [Z.shiftl 1 m], and
    [~(1 << modifier)] converted to [unsigned] keeps the same low 32 bits as
    [Z.lnot].  The [ARKMOD_*] indices are outside the sources. *)
Definition update_state (kt : keytables) (code : Z) (state : bool)
  (statev : Z) : Z :=
  match modifier_of kt code with
  | None => statev
  | Some m =>
      if state then wrapu32 (Z.lor statev (Z.shiftl 1 m))
      else wrapu32 (Z.land statev (Z.lnot (Z.shiftl 1 m)))
  end.

(** One record of [defhandler_kbd]: the new modifier state and the events. *)
Definition kbd_record (kt : keytables) (dn statev : Z) (r : input_event)
  : Z * list event :=
  if ie_type r =? EV_KEY then
    let code := ie_code r in
    let st := update_state kt code (negb (ie_value r =? 0)) statev in
    let ev (a : bool) :=
      EvTranslated dn code (lookup_keycode kt code) st
        (lookup_character kt code st) a in
    if ie_value r =? 2 then (st, [ev false; ev true])
    else (st, [ev (negb (ie_value r =? 0))])
  else (statev, []).

(** [defhandler_kbd] on the records of one successful read. *)
Fixpoint defhandler_kbd (kt : keytables) (dn statev : Z) (rs : list input_event)
  : Z * list event :=
  match rs with
  | [] => (statev, [])
  | r :: rs' =>
      let '(s1, e1) := kbd_record kt dn statev r in
      let '(s2, e2) := defhandler_kbd kt dn s1 rs' in
      (s2, e1 ++ e2)
  end.

(** [code_to_mouse]. *)
Definition code_to_mouse (code : Z) : Z :=
  if (code <? BTN_MOUSE) || (BTN_JOYSTICK <=? code) then -1
  else code - BTN_MOUSE + 1.

Definition set_x (c : cursor_state) (x : Z) (f : axis_opts) : cursor_state :=
  mk_cursor x (my c) f (flt1 c).

Definition set_y (c : cursor_state) (y : Z) (f : axis_opts) : cursor_state :=
  mk_cursor (mx c) y (flt0 c) f.

(** One record of [defhandler_mouse]; the [int] value is passed to
    [process_axis] as an [int16_t], the [uint16_t] positions wrap. *)
Definition mouse_record (dn : Z) (c : cursor_state) (r : input_event)
  : cursor_state * list event :=
  if ie_type r =? EV_KEY then
    let samplev := code_to_mouse (ie_code r) in
    if samplev <? 0 then (c, [])
    else (c, [EvDigital dn samplev (negb (ie_value r =? 0))])
  else if ie_type r =? EV_REL then
    if ie_code r =? REL_X then
      let '(f, o) := process_axis (flt0 c) (wrap16 (ie_value r)) in
      match o with
      | None => (set_x c (mx c) f, [])
      | Some _ =>
          let samplev := wrap16 (ie_value r) in
          let x := if mx c + samplev <? 0 then 0 else wrapu16 (mx c + samplev) in
          (set_x c x f, [EvAnalog dn 0 true x samplev])
      end
    else if ie_code r =? REL_Y then
      let '(f, o) := process_axis (flt1 c) (wrap16 (ie_value r)) in
      match o with
      | None => (set_y c (my c) f, [])
      | Some samplev =>
          let y := if my c + samplev <? 0 then 0 else wrapu16 (my c + samplev) in
          (set_y c y f, [EvAnalog dn 1 true y samplev])
      end
    else (c, [])
  else (c, []).

(** [defhandler_mouse] on the records of one successful read. *)
Fixpoint defhandler_mouse (dn : Z) (c : cursor_state) (rs : list input_event)
  : cursor_state * list event :=
  match rs with
  | [] => (c, [])
  | r :: rs' =>
      let '(c1, e1) := mouse_record dn c r in
      let '(c2, e2) := defhandler_mouse dn c1 rs' in
      (c2, e1 ++ e2)
  end.

End Decoders.

(** ** Device identity: [identify] *)
Module Identity.
Import Registry.

(** [unsigned long] arithmetic (64 bits) and the conversion of an [int] to
    a (signed) [char]. *)
Definition wrapu64 (z : Z) : Z := z mod 18446744073709551616.
Definition wrap8s (z : Z) : Z := (z + 128) mod 256 - 128.

(** The rolling hash of [identify]: [hash = ((hash << 5) + hash) + c] for
    each [char] [c] in turn. *)
Definition djb2 (hash : Z) (cs : list Z) : Z :=
  fold_left (fun h c => wrapu64 (Z.shiftl h 5 + h + c)) cs hash.

(** [struct input_id] (the bus type is not read). *)
Record input_id := mk_input_id { vendor : Z; product : Z; version : Z }.

(** What the kernel answers to the ioctls of [identify], each [None] when
    the ioctl fails: [EVIOCGNAME] (the label bytes before the NUL),
    [EVIOCGID], [EVIOCGUNIQ] and [EVIOCGBIT(0, EV_MAX)] (the contents of the
    [sizeof(buf)] bytes of [buf] after the call). *)
Record id_probe := mk_id_probe {
  name : option (list Z);
  nodeid : option input_id;
  uniq : option (list Z);
  evbit_bytes : option (list Z)
}.

(** ["unknown"]. *)
Definition unknown_label : list Z := [117; 110; 107; 110; 111; 119; 110].

(** [sizeof(buf)]: [nbits = (EV_MAX - 1) / 64 + 1 = 1] long of 8 bytes. *)
Definition buf_size : nat := 8.

(** [identify]: the label and [*dnum], or [None] when it returns false.
    [buf] is hashed over its [sizeof(buf)] bytes. The stores to
    [buf[8]] .. [buf[11]] (vendor and product) lie past the end of [buf];
    they are not modelled. *)
Definition identify (p : id_probe) (path : list Z) : option (list Z * Z) :=
  let label := match name p with Some l => l | None => unknown_label end in
  match nodeid p with
  | None => None
  | Some nid =>
      let buf0 := repeat 0 buf_size in
      let buf1 := match uniq p with Some b => b | None => buf0 end in
      let '(hash, buf) :=
        if match uniq p with
           | None => true
           | Some b => forallb (Z.eqb 0) b
           end
        then
          let h := djb2 (djb2 5381 label) path in
          let b7 := wrap8s (Z.lxor (nth 7 buf1 0) (Z.shiftr (version nid) 8)) in
          let b6 := wrap8s (Z.lxor (nth 6 buf1 0) (version nid)) in
          let buf := list_set (list_set buf1 7 b7) 6 b6 in
          let buf := match evbit_bytes p with Some b => b | None => buf end in
          (h, buf)
        else (5381, buf1) in
      let hash := djb2 hash buf in
      let devnum := wrapu16 hash in
      let devnum := if devnum <? MAX_DEVICES then devnum + MAX_DEVICES
                    else devnum in
      Some (label, devnum)
  end.

End Identity.

(** ** The query and configuration surface and the device-set lifecycle:
    [platform_event_analogfilter], [platform_event_devlabel], [disconnect],
    [platform_event_deinit], [platform_event_keyrepeat],
    [platform_input_capabilities] *)
Module Lifecycle.
Import AxisFilter Registry.
Import (notations) String.

(** The store through the pointer [find_axis] returns: the same [switch]
    as [node_axis]. *)
Definition set_node_axis (n : devnode) (axisid : Z) (a : axis_opts) : devnode :=
  match dtype n with
  | DEVNODE_SENSOR =>
      if axisid =? 0
      then mk_node (handle n) (hnd n) (label n) (devnum n) (button_count n)
             (dtype n) a (game n) (cursor n) (kbd_state n)
      else n
  | DEVNODE_GAME =>
      if axisid <? axes (game n)
      then mk_node (handle n) (hnd n) (label n) (devnum n) (button_count n)
             (dtype n) (sensor n)
             (mk_game (axes (game n)) (hats (game n))
                (list_set (adata (game n)) (Z.to_nat axisid) a))
             (cursor n) (kbd_state n)
      else n
  | DEVNODE_MOUSE =>
      let c := cursor n in
      if axisid =? 0
      then mk_node (handle n) (hnd n) (label n) (devnum n) (button_count n)
             (dtype n) (sensor n) (game n)
             (mk_cursor (mx c) (my c) a (flt1 c)) (kbd_state n)
      else if axisid =? 1
      then mk_node (handle n) (hnd n) (label n) (devnum n) (button_count n)
             (dtype n) (sensor n) (game n)
             (mk_cursor (mx c) (my c) (flt0 c) a) (kbd_state n)
      else n
  | _ => n
  end.

(** The [int] axis index as the [unsigned] parameter of [find_axis]. *)
Definition uaxis (axisid : Z) : Z :=
  if axisid <? 0 then axisid + 4294967296 else axisid.

(** [platform_event_analogfilter]: [find_axis], then the clamp of
    [buffer_sz] and [set_analogstate] on the axis found. *)
Definition platform_event_analogfilter (io : iodev_state) (devid axisid
  lower_bound upper_bound dz buffer_sz : Z) (kind : filter_kind)
  : iodev_state :=
  let ax := uaxis axisid in
  match lookup_devnode io devid with
  | None => io
  | Some i =>
      match nth_error (nodes io) i with
      | None => io
      | Some n =>
          match node_axis n ax with
          | None => io
          | Some a =>
              mk_iodev (n_devs io) (mouseid io)
                (list_set (nodes io) i
                   (set_node_axis n ax
                      (analogfilter_axis a lower_bound upper_bound dz
                         buffer_sz kind)))
                (pollset io)
          end
      end
  end.

(** [platform_event_devlabel]; a slot index at or beyond the end of
    [nodes] would be an out-of-bounds read in C, taken here as a zeroed
    slot. *)
Definition platform_event_devlabel (io : iodev_state) (devid : Z)
  : String.string :=
  if devid =? -1 then "mouse"%string
  else if (devid <? 0) || (n_devs io <=? devid) then "no device"%string
  else
    let n := nth (Z.to_nat devid) (nodes io) zero_node in
    if String.eqb (label n) String.EmptyString then "no identifier"%string
    else label n.

(** [disconnect] of the node in slot [k] (the node the dispatch loop
    handed to the decoder): the new registry and the descriptors closed. *)
Definition disconnect (io : iodev_state) (k : nat) : iodev_state * list Z :=
  let node := nth k (nodes io) zero_node in
  match scan_devnum (nodes io) 0 (Z.to_nat (n_devs io)) (devnum node) with
  | None => (io, [])
  | Some i =>
      (mk_iodev
         (if Z.of_nat i =? n_devs io - 1 then n_devs io - 1 else n_devs io)
         (mouseid io)
         (list_set (nodes io) k (set_handle node 0))
         (list_set (pollset io) i (0, 0)),
       [handle node])
  end.

(** The device loop of [platform_event_deinit] over the first [n] slots:
    the slots after it and the descriptors closed. *)
Fixpoint deinit_nodes (ns : list devnode) (n : nat) : list devnode * list Z :=
  match ns, n with
  | [], _ => ([], [])
  | _, O => (ns, [])
  | x :: r, S n' =>
      let '(r', c) := deinit_nodes r n' in
      if 0 <? handle x then (zero_node :: r', handle x :: c) else (x :: r', c)
  end.

(** The fields of [gstate] that [platform_event_deinit] reads and writes
    ([mode] is not touched). *)
Record gstate_t := mk_gstate {
  kbmode : Z;
  leds : Z;
  mute : bool;
  tty : Z;
  notify : Z
}.

(** Constants of [unistd.h] and [linux/kd.h]. *)
Definition STDIN_FILENO := 0.
Definition KD_TEXT := 0.
Definition K_XLATE := 1.
Definition K_OFF := 4.

(** The console requests [platform_event_deinit] issues on [gstate.tty]. *)
Inductive tty_request := KDSKBMUTE (arg : Z) | KDSETMODE (arg : Z)
  | KDSKBMODE (arg : Z) | KDSETLED (arg : Z).

(** [platform_event_deinit]: [is_tty] is the answer of [isatty(gstate.tty)].
    The result is the new [gstate] and [iodev], the console requests in
    order, and the descriptors closed in order (console, inotify, then the
    devices).  A failing [KDSETMODE] only logs a warning. *)
Definition platform_event_deinit (is_tty : bool) (gs : gstate_t)
  (io : iodev_state) : gstate_t * iodev_state * list tty_request * list Z :=
  let '(gs1, reqs) :=
    if is_tty && mute gs then
      let km := if kbmode gs =? K_OFF then K_XLATE else kbmode gs in
      (mk_gstate km (leds gs) false (tty gs) (notify gs),
       [KDSKBMUTE 0; KDSETMODE KD_TEXT; KDSKBMODE km; KDSETLED (leds gs)])
    else (gs, []) in
  let '(gs2, c1) :=
    if negb (tty gs1 =? STDIN_FILENO)
    then (mk_gstate (kbmode gs1) (leds gs1) (mute gs1) STDIN_FILENO (notify gs1),
          [tty gs1])
    else (gs1, []) in
  let '(gs3, c2) :=
    if negb (notify gs2 =? -1)
    then (mk_gstate (kbmode gs2) (leds gs2) (mute gs2) (tty gs2) (-1),
          [notify gs2])
    else (gs2, []) in
  let '(ns, c3) := deinit_nodes (nodes io) (Z.to_nat (n_devs io)) in
  (gs3, mk_iodev 0 (mouseid io) ns (pollset io), reqs, c1 ++ c2 ++ c3).

(** [iodev.period] and [iodev.delay], both [unsigned]. *)
Record repeat_state := mk_repeat { period : Z; delay : Z }.

Definition to_u32 (z : Z) : Z := z mod 4294967296.
Definition to_i32 (u : Z) : Z :=
  if u <? 2147483648 then u else u - 4294967296.

Definition is_keyboard (t : devnode_type) : bool :=
  match t with DEVNODE_KEYBOARD => true | _ => false end.

(** The handles of the keyboards among the first [n] slots. *)
Fixpoint keyboard_handles (ns : list devnode) (n : nat) : list Z :=
  match ns, n with
  | [], _ | _, O => []
  | x :: r, S n' =>
      (if is_keyboard (dtype x) then [handle x] else []) ++
      keyboard_handles r n'
  end.

(** [platform_event_keyrepeat]: the new repeat state, [*period] and
    [*delay] after the call, and the [KDKBDREP] requests (handle, period,
    delay) it issues. *)
Definition platform_event_keyrepeat (io : iodev_state) (rs : repeat_state)
  (period_in delay_in : Z) : repeat_state * Z * Z * list (Z * Z * Z) :=
  let '(rs1, period_out, upd1) :=
    if period_in <? 0 then (rs, to_i32 (period rs), false)
    else (mk_repeat (to_u32 period_in) (delay rs), to_i32 (period rs), true) in
  let '(rs2, delay_out, upd2) :=
    if delay_in <? 0
    then (mk_repeat (period rs1) (to_u32 delay_in), to_i32 (delay rs1), true)
    else (rs1, delay_in, upd1) in
  (rs2, period_out, delay_out,
   if upd2
   then map (fun h => (h, to_i32 (period rs2), to_i32 (delay rs2)))
          (keyboard_handles (nodes io) (Z.to_nat (n_devs io)))
   else []).

(** Modelled from the spec: the flags of
    [enum PLATFORM_EVENT_CAPABILITIES] (not among the sources) used by
    [platform_input_capabilities], taken as distinct bits; a bit mask is a
    predicate on them. *)
Inductive acap := ACAP_TRANSLATED | ACAP_MOUSE | ACAP_GAMING | ACAP_TOUCH
  | ACAP_POSITION | ACAP_ORIENTATION.

Definition acap_eqb (a b : acap) : bool :=
  match a, b with
  | ACAP_TRANSLATED, ACAP_TRANSLATED | ACAP_MOUSE, ACAP_MOUSE
  | ACAP_GAMING, ACAP_GAMING | ACAP_TOUCH, ACAP_TOUCH
  | ACAP_POSITION, ACAP_POSITION | ACAP_ORIENTATION, ACAP_ORIENTATION => true
  | _, _ => false
  end.

(** The [switch] of [platform_input_capabilities]. *)
Definition type_caps (t : devnode_type) : list acap :=
  match t with
  | DEVNODE_SENSOR => [ACAP_POSITION; ACAP_ORIENTATION]
  | DEVNODE_MOUSE => [ACAP_MOUSE]
  | DEVNODE_GAME => [ACAP_GAMING]
  | DEVNODE_KEYBOARD => [ACAP_TRANSLATED]
  | DEVNODE_TOUCH => [ACAP_TOUCH]
  | _ => []
  end.

Fixpoint caps_loop (ns : list devnode) (n : nat) (rv : acap -> bool)
  : acap -> bool :=
  match ns, n with
  | [], _ | _, O => rv
  | x :: r, S n' =>
      caps_loop r n'
        (if negb (handle x =? 0)
         then fun c => rv c || existsb (acap_eqb c) (type_caps (dtype x))
         else rv)
  end.

(** [platform_input_capabilities]. *)
Definition platform_input_capabilities (io : iodev_state) : acap -> bool :=
  caps_loop (nodes io) (Z.to_nat (n_devs io)) (fun _ => false).

End Lifecycle.

(** ** The inotify loop of [platform_event_process] *)
Module Notify.

Definition IN_CREATE := 256.
Definition IN_ISDIR := 1073741824.
(** [sizeof(struct inotify_event)]: [wd], [mask], [cookie], [len]. *)
Definition INOTIFY_EVENT_SZ := 16.
(** [sizeof(inbuf)]. *)
Definition INBUF_SZ := 1024.

(** A [uint32_t] field copied out of [inbuf] (little-endian bytes). *)
Definition le32 (b : list Z) (o : nat) : Z :=
  nth o b 0 + 256 * nth (o + 1) b 0 + 65536 * nth (o + 2) b 0 +
  16777216 * nth (o + 3) b 0.

(** The [while] loop over the records of one [read]: the [(name, len)]
    arguments of the [discovered] calls, as offsets into [inbuf].
    [nr - ofs] is a signed difference compared with a [size_t], so it is
    taken modulo 2^64.  [None] is a [memcpy] of a header reaching past
    [inbuf].  Each iteration that copies a header from inside [inbuf]
    advances [ofs] by at least 16 from 0, so 65 iterations reach either the
    end of the loop or such a [memcpy]; the fuel is never the reason for
    [None]. *)
Fixpoint notify_scan (fuel : nat) (inbuf : list Z) (nr ofs : Z)
  : option (list (Z * Z)) :=
  match fuel with
  | O => None
  | S f =>
      if INOTIFY_EVENT_SZ <? Identity.wrapu64 (nr - ofs) then
        if INBUF_SZ <? ofs + INOTIFY_EVENT_SZ then None
        else
          let mask := le32 inbuf (Z.to_nat ofs + 4) in
          let len := le32 inbuf (Z.to_nat ofs + 12) in
          let ofs := ofs + INOTIFY_EVENT_SZ in
          if negb (Z.land mask IN_CREATE =? 0) && (Z.land mask IN_ISDIR =? 0) then
            option_map (cons (ofs, len)) (notify_scan f inbuf nr (ofs + len))
          else notify_scan f inbuf nr ofs
      else Some []
  end.

(** The notify part of [platform_event_process], on the bytes [inbuf] and
    the result [nr] of the [read]. *)
Definition notify_events (inbuf : list Z) (nr : Z) : option (list (Z * Z)) :=
  if nr =? -1 then Some [] else notify_scan 65 inbuf nr 0.

End Notify.

(** ** Concrete devices used by the examples *)
Module Scenarios.
Import AxisFilter Registry.


(** A game pad with the single absolute axis [ABS_X] and no answer to
    [EVIOCGABS]. *)
Definition pad_probe (dn : Z) : probe :=
  mk_probe true true (Some (String.EmptyString, dn)) (Some 8) None None
    (Some 1) (fun _ => None) None true.

(** A mouse: buttons [BTN_LEFT] and [BTN_RIGHT], relative [REL_X] and
    [REL_Y]. *)
Definition mouse_probe (dn : Z) : probe :=
  mk_probe true true (Some (String.EmptyString, dn)) (Some 6)
    (Some (Z.lor (Z.shiftl 1 BTN_LEFT) (Z.shiftl 1 BTN_RIGHT))) (Some 3) None
    (fun _ => None) None true.


End Scenarios.

(** * Proofs *)

Ltac case_ifs :=
  repeat (cbn; match goal with
               | |- context [if ?b then _ else _] => destruct b
               end); cbn.

Lemma wrap16_id (z : Z) : is_int16 z -> wrap16 z = z.
Proof. unfold wrap16, is_int16; intros H; rewrite Z.mod_small by lia; lia. Qed.

Lemma wrap16_range (z : Z) : is_int16 (wrap16 z).
Proof.
  unfold wrap16, is_int16.
  pose proof (Z.mod_pos_bound (z + 32768) 65536 ltac:(lia)); lia.
Qed.

Module AxisFilterProofs.
Import AxisFilter.

Lemma prefilter_fields (d : axis_opts) (v : Z) :
  mode (fst (prefilter d v)) = mode d /\
  kernel_sz (fst (prefilter d v)) = kernel_sz d /\
  kernel_ofs (fst (prefilter d v)) = kernel_ofs d /\
  flt_kernel (fst (prefilter d v)) = flt_kernel d.
Proof.
  destruct d; unfold prefilter, deadzone_stage, edge_stage, set_indzone, set_edges, with_kernel; cbn.
  case_ifs; repeat split.
Qed.

Lemma prefilter_with_kernel (d : axis_opts) (ofs : Z) (k : Z -> Z) (v : Z) :
  prefilter (with_kernel d ofs k) v =
  (with_kernel (fst (prefilter d v)) ofs k, snd (prefilter d v)).
Proof.
  destruct d; unfold prefilter, deadzone_stage, edge_stage, set_indzone, set_edges, with_kernel; cbn.
  case_ifs; reflexivity.
Qed.

Lemma accepted_with_kernel : forall vs d ofs k,
  accepted (with_kernel d ofs k) vs = accepted d vs.
Proof.
  induction vs as [|v vs IH]; intros d ofs k; [reflexivity|].
  cbn [accepted]. rewrite prefilter_with_kernel.
  destruct (prefilter d v) as [d1 o]; cbn. rewrite IH; reflexivity.
Qed.

Lemma prefilter_int16 (d : axis_opts) (v s : Z) :
  is_int16 v -> snd (prefilter d v) = Some s -> is_int16 s.
Proof.
  intros Hv. unfold prefilter, deadzone_stage, edge_stage.
  case_ifs; cbn; intros H; inversion H; subst;
    try apply wrap16_range; try assumption; unfold is_int16; lia.
Qed.

Lemma feed_cons (d : axis_opts) (v : Z) (r : list Z) :
  snd (feed d (v :: r)) =
  snd (process_axis d v) :: snd (feed (fst (process_axis d v)) r).
Proof.
  cbn. destruct (process_axis d v) as [d1 o]. cbn.
  destruct (feed d1 r); reflexivity.
Qed.

Lemma ksum_nat_list : forall (l : list Z) (k : Z -> Z),
  (forall i, (i < length l)%nat -> k (Z.of_nat i) = nth i l 0) ->
  ksum_nat k (length l) = fold_left Z.add l 0.
Proof.
  induction l as [|x l IH] using rev_ind; intros k Hk; [reflexivity|].
  rewrite length_app; cbn [length].
  replace (length l + 1)%nat with (S (length l)) by lia.
  cbn [ksum_nat]. rewrite fold_left_app; cbn.
  rewrite IH.
  - rewrite Hk by (rewrite length_app; cbn; lia).
    rewrite nth_middle; reflexivity.
  - intros i Hi. rewrite Hk by (rewrite length_app; cbn; lia).
    apply app_nth1; exact Hi.
Qed.

Lemma fold_add_acc : forall (l : list Z) (a : Z),
  fold_left Z.add l a = a + fold_left Z.add l 0.
Proof.
  induction l as [|x l IH]; intros a; cbn; [lia|].
  rewrite (IH (a + x)), (IH x); lia.
Qed.

Lemma fold_add_bounds : forall l : list Z,
  Forall is_int16 l ->
  -32768 * Z.of_nat (length l) <= fold_left Z.add l 0 <=
  32767 * Z.of_nat (length l).
Proof.
  induction 1 as [|x l Hx _ IH]; cbn; [lia|].
  rewrite fold_add_acc. unfold is_int16 in Hx. lia.
Qed.

Lemma quot_int16 (t K : Z) :
  1 <= K -> -32768 * K <= t <= 32767 * K -> is_int16 (Z.quot t K).
Proof.
  intros HK Ht. unfold is_int16.
  destruct (Z.le_gt_cases 0 t) as [Hp|Hn].
  - rewrite Z.quot_div_nonneg by lia. split.
    + pose proof (Z.div_pos t K Hp ltac:(lia)); lia.
    + apply Z.div_le_upper_bound; lia.
  - replace t with (- (- t)) by lia.
    rewrite Z.quot_opp_l by lia.
    rewrite Z.quot_div_nonneg by lia. split.
    + assert (- t / K <= 32768) by (apply Z.div_le_upper_bound; lia). lia.
    + pose proof (Z.div_pos (- t) K ltac:(lia) ltac:(lia)); lia.
Qed.

(** The averaging kernel, from a batch [buf] in progress. *)
Lemma feed_avg_gen : forall vs d buf,
  mode d = ANALOGFILTER_AVG -> 1 <= kernel_sz d <= 64 ->
  kernel_ofs d = Z.of_nat (length buf) ->
  Z.of_nat (length buf) < kernel_sz d ->
  (forall i, (i < length buf)%nat -> flt_kernel d (Z.of_nat i) = nth i buf 0) ->
  Forall is_int16 buf -> Forall is_int16 vs ->
  snd (feed d vs) = avg_trace (kernel_sz d) buf (accepted d vs).
Proof.
  induction vs as [|v vs IH]; intros d buf Hm HK Hofs Hlen Hk Hbuf Hvs;
    [reflexivity|].
  inversion Hvs as [|? ? Hv Hvs']; subst.
  rewrite feed_cons. cbn [accepted].
  pose proof (prefilter_fields d v) as (Hm1 & HK1 & Ho1 & Hf1).
  pose proof (prefilter_int16 d v) as Hint.
  unfold process_axis. rewrite Hm.
  destruct (prefilter d v) as [d1 [s|]]; cbn in Hm1, HK1, Ho1, Hf1 |- *.
  - specialize (Hint s Hv eq_refl).
    unfold kernel_stage. rewrite Ho1, HK1, Hf1, Hm1, Hofs.
    rewrite length_app; cbn [length].
    destruct (Z.of_nat (length buf) + 1 <? kernel_sz d) eqn:Hlt.
    + apply Z.ltb_lt in Hlt.
      replace (Z.of_nat (length buf + 1) =? kernel_sz d) with false
        by (symmetry; apply Z.eqb_neq; lia).
      cbn. f_equal.
      rewrite <- (accepted_with_kernel vs d1 (Z.of_nat (length buf) + 1)
                    (upd (flt_kernel d) (Z.of_nat (length buf)) s)).
      rewrite <- HK1.
      apply (IH (with_kernel d1 _ _) (buf ++ [s]));
        cbn; try rewrite Hm1; try rewrite HK1; auto.
      * rewrite length_app; cbn; lia.
      * rewrite length_app; cbn; lia.
      * intros i Hi. rewrite length_app in Hi; cbn in Hi. unfold upd.
        destruct (Z.eq_dec (Z.of_nat i) (Z.of_nat (length buf))) as [E|E].
        -- apply Nat2Z.inj in E; subst. rewrite nth_middle; reflexivity.
        -- rewrite app_nth1 by lia. apply Hk; lia.
      * apply Forall_app; auto.
    + apply Z.ltb_ge in Hlt.
      assert (HKeq : kernel_sz d = Z.of_nat (length buf) + 1) by lia.
      replace (Z.of_nat (length buf + 1) =? kernel_sz d) with true
        by (symmetry; apply Z.eqb_eq; lia).
      cbn. f_equal.
      * f_equal.
        set (k := upd (flt_kernel d) (Z.of_nat (length buf)) s).
        assert (Hsum : ksum k (kernel_sz d) = fold_left Z.add (buf ++ [s]) 0).
        { unfold ksum. rewrite HKeq.
          replace (Z.to_nat (Z.of_nat (length buf) + 1))
            with (length (buf ++ [s])) by (rewrite length_app; cbn; lia).
          apply ksum_nat_list. intros i Hi.
          rewrite length_app in Hi; cbn in Hi. unfold k, upd.
          destruct (Z.eq_dec (Z.of_nat i) (Z.of_nat (length buf))) as [E|E].
          - apply Nat2Z.inj in E; subst. rewrite nth_middle; reflexivity.
          - rewrite app_nth1 by lia. apply Hk; lia. }
        assert (Hall : Forall is_int16 (buf ++ [s])) by (apply Forall_app; auto).
        pose proof (fold_add_bounds _ Hall) as Hb.
        rewrite length_app in Hb; cbn [length] in Hb.
        destruct (1 <? kernel_sz d) eqn:H1.
        -- rewrite Hm. rewrite Hsum.
           destruct (fold_left Z.add (buf ++ [s]) 0 =? 0) eqn:Hz; cbn.
           ++ apply Z.eqb_eq in Hz. rewrite Hz, Z.quot_0_l by lia. reflexivity.
           ++ apply wrap16_id, quot_int16; lia.
        -- apply Z.ltb_ge in H1.
           assert (length buf = 0%nat) by lia.
           destruct buf; [|cbn in *; lia].
           cbn. replace (kernel_sz d) with 1 by lia.
           rewrite Z.quot_1_r; reflexivity.
      * rewrite <- (accepted_with_kernel vs d1 0
                    (upd (flt_kernel d) (Z.of_nat (length buf)) s)).
        rewrite <- HK1.
        apply (IH (with_kernel d1 _ _) []);
          cbn; try rewrite Hm1; try rewrite HK1; auto; try lia.
  - f_equal. rewrite <- HK1. apply (IH d1 buf); try rewrite Hm1; try rewrite HK1;
      try rewrite Ho1; try rewrite Hf1; auto.
Qed.

Lemma prefilter_bounds (d : axis_opts) (v : Z) :
  lower (fst (prefilter d v)) = lower d /\
  upper (fst (prefilter d v)) = upper d /\
  deadzone (fst (prefilter d v)) = deadzone d.
Proof.
  destruct d; unfold prefilter, deadzone_stage, edge_stage, set_indzone,
    set_edges; cbn.
  case_ifs; repeat split.
Qed.

Lemma accepted_in_band : forall vs d,
  Forall (in_band d) vs -> accepted d vs = map Some vs.
Proof.
  induction vs as [|v vs IH]; intros d H; [reflexivity|].
  inversion H as [|? ? [Hdz Hb] Hr]; subst. cbn [accepted map].
  pose proof (prefilter_bounds d v) as (Hl & Hu & Hd).
  assert (Hp : snd (prefilter d v) = Some v).
  { unfold prefilter, deadzone_stage.
    replace (Z.abs v <? deadzone d) with false by (symmetry; apply Z.ltb_ge; lia).
    unfold edge_stage; cbn.
    replace (v <? lower d) with false by (symmetry; apply Z.ltb_ge; lia).
    replace (upper d <? v) with false by (symmetry; apply Z.ltb_ge; lia).
    reflexivity. }
  destruct (prefilter d v) as [d1 o]; cbn in Hp, Hl, Hu, Hd |- *; subst.
  f_equal. apply IH.
  eapply Forall_impl; [|exact Hr]. intros x [Hx1 Hx2]. unfold in_band.
  rewrite Hl, Hu, Hd; auto.
Qed.

Lemma analogfilter_axis_fields (d : axis_opts) (l u dz b : Z) (k : filter_kind) :
  mode (analogfilter_axis d l u dz b k) = k /\
  1 <= kernel_sz (analogfilter_axis d l u dz b k) <= 64 /\
  kernel_ofs (analogfilter_axis d l u dz b k) = 0 /\
  lower (analogfilter_axis d l u dz b k) = l /\
  upper (analogfilter_axis d l u dz b k) = u /\
  deadzone (analogfilter_axis d l u dz b k) = dz.
Proof.
  unfold analogfilter_axis, set_analogstate; cbn.
  destruct (64 <? b) eqn:E1; cbn; [repeat split; lia|].
  apply Z.ltb_ge in E1.
  destruct (b <=? 0) eqn:E2; cbn; [repeat split; lia|].
  apply Z.leb_gt in E2. repeat split; lia.
Qed.

(** ** Claim C1, as stated: refuted.  Kernel size 2, bounds [-100, 100]:
    the out-of-band sample 200 enters the kernel clamped to 100, so the
    filter outputs 75 after the single in-band sample 50; the mean of the
    two samples fed is 125. *)
Lemma avg_counterexample :
  snd (feed (analogfilter_axis (map_axes_axis None) (-100) 100 0 2
               ANALOGFILTER_AVG) [200; 50]) = [None; Some 75] /\
  Z.quot (200 + 50) 2 = 125.
Proof. split; reflexivity. Qed.

(** ** Claim C1 (amended): once an axis is configured in [AVG] mode with
    kernel size [K] (clamped to [1, 64]), for every sequence of 16-bit
    samples the filter outputs exactly once per [K] samples that reach the
    kernel (an in-band sample as is, the first sample of a deadzone entry as
    0, the first sample of an edge entry as the bound), and the output is
    the mean of those [K] stored values truncated toward zero (0 for a zero
    sum).  When every sample is in band, the samples reaching the kernel are
    exactly the samples fed. *)
Theorem avg_output_per_K_accepted (d0 : axis_opts) (l u dz b : Z)
  (vs : list Z) :
  Forall is_int16 vs ->
  let d := analogfilter_axis d0 l u dz b ANALOGFILTER_AVG in
  snd (feed d vs) = avg_trace (kernel_sz d) [] (accepted d vs) /\
  (Forall (in_band d) vs -> accepted d vs = map Some vs).
Proof.
  intros Hvs d.
  pose proof (analogfilter_axis_fields d0 l u dz b ANALOGFILTER_AVG)
    as (Hm & HK & Ho & _).
  split.
  - apply feed_avg_gen; fold d in Hm, HK, Ho; auto.
    all: first [ exact Ho | (cbn [length Z.of_nat]; lia)
               | (intros i Hi; cbn in Hi; lia) | constructor ].
  - apply accepted_in_band.
Qed.

Lemma avg_output_per_K_accepted_witness :
  snd (feed (analogfilter_axis (map_axes_axis None) (-100) 100 0 2
               ANALOGFILTER_AVG) [200; 50]) =
  avg_trace 2 [] (accepted (analogfilter_axis (map_axes_axis None) (-100)
                              100 0 2 ANALOGFILTER_AVG) [200; 50]).
Proof.
  exact (proj1 (avg_output_per_K_accepted (map_axes_axis None) (-100) 100 0 2
                  [200; 50] ltac:(repeat constructor; unfold is_int16; lia))).
Defined.

Lemma process_axis_dz_split (d : axis_opts) (v : Z) :
  mode d <> ANALOGFILTER_NONE -> mode d <> ANALOGFILTER_PASS ->
  process_axis d v =
  match deadzone_stage d v with
  | None => (d, None)
  | Some (d1, s1) => edge_then_kernel d1 s1
  end.
Proof.
  intros H1 H2. unfold process_axis, prefilter, edge_then_kernel.
  destruct (mode d); try congruence;
    destruct (deadzone_stage d v) as [[d1 s1]|];
    try destruct (edge_stage d1 s1) as [[d2 s2]|]; reflexivity.
Qed.

Lemma edge_then_kernel_fields (d : axis_opts) (s : Z) :
  mode (fst (edge_then_kernel d s)) = mode d /\
  deadzone (fst (edge_then_kernel d s)) = deadzone d /\
  indzone (fst (edge_then_kernel d s)) = indzone d.
Proof.
  destruct d; unfold edge_then_kernel, edge_stage, kernel_stage, set_edges,
    with_kernel; cbn.
  case_ifs; repeat split.
Qed.

Lemma dz_run_silent : forall vs d,
  mode d <> ANALOGFILTER_NONE -> mode d <> ANALOGFILTER_PASS ->
  indzone d = true -> Forall (fun w => Z.abs w < deadzone d) vs ->
  feed d vs = (d, map (fun _ => None) vs).
Proof.
  induction vs as [|v vs IH]; intros d H1 H2 Hz Hall; [reflexivity|].
  inversion Hall as [|? ? Hv Hr]; subst. cbn [feed].
  rewrite (process_axis_dz_split d v H1 H2). unfold deadzone_stage.
  replace (Z.abs v <? deadzone d) with true by (symmetry; apply Z.ltb_lt; lia).
  rewrite Hz. rewrite IH by auto. reflexivity.
Qed.

(** ** Claim C2, as stated: refuted.  Kernel size 2, deadzone 100: the
    entry sample 5 only puts a 0 in the kernel, no 0 is output, and the exit
    sample 300 is output averaged with that 0. *)
Lemma deadzone_counterexample :
  snd (feed (analogfilter_axis (map_axes_axis None) (-32768) 32767 100 2
               ANALOGFILTER_AVG) [5; 7; 300]) = [None; None; Some 150].
Proof. reflexivity. Qed.

(** ** Claim C2 (amended): in a mode other than [NONE] and [PASS], the first
    sample of a run of samples of magnitude below the deadzone (entry) sets
    the deadzone flag and goes on through the edge filter and the kernel as
    the sample 0; every further sample of the run produces no output and
    leaves the filter unchanged.  With [lower <= 0 <= upper] and a kernel
    size of at most 1, the 0 is output at once unless the offset is below
    [size - 1] (never so for an offset of at least 0).  A sample at or beyond
    the deadzone clears the flag and goes on with its real value. *)
Theorem deadzone_entry_once (d : axis_opts) :
  mode d <> ANALOGFILTER_NONE -> mode d <> ANALOGFILTER_PASS ->
  (forall v vs, indzone d = false ->
     Forall (fun w => Z.abs w < deadzone d) (v :: vs) ->
     let '(d1, o) := edge_then_kernel (set_indzone d true) 0 in
     feed d (v :: vs) = (d1, o :: map (fun _ => None) vs) /\
     indzone d1 = true) /\
  (forall v, indzone d = true -> Z.abs v < deadzone d ->
     process_axis d v = (d, None)) /\
  (forall v, indzone d = false -> Z.abs v < deadzone d ->
     kernel_sz d <= 1 -> lower d <= 0 <= upper d ->
     snd (process_axis d v) =
       if kernel_ofs d + 1 <? kernel_sz d then None else Some 0) /\
  (forall v, deadzone d <= Z.abs v ->
     process_axis d v = edge_then_kernel (set_indzone d false) v).
Proof.
  intros H1 H2. split; [|split; [|split]].
  - intros v vs Hz Hall. inversion Hall as [|? ? Hv Hr]; subst.
    cbn [feed].
    rewrite (process_axis_dz_split d v H1 H2). unfold deadzone_stage.
    replace (Z.abs v <? deadzone d) with true by (symmetry; apply Z.ltb_lt; lia).
    rewrite Hz.
    pose proof (edge_then_kernel_fields (set_indzone d true) 0) as (Hm & Hd & Hi).
    destruct (edge_then_kernel (set_indzone d true) 0) as [d1 o]; cbn in *.
    rewrite dz_run_silent; [split; [reflexivity | exact Hi] | congruence
      | congruence | exact Hi |].
    eapply Forall_impl; [|exact Hr]. intros w Hw; cbn in Hw. lia.
  - intros v Hz Hv.
    rewrite (process_axis_dz_split d v H1 H2). unfold deadzone_stage.
    replace (Z.abs v <? deadzone d) with true by (symmetry; apply Z.ltb_lt; lia).
    rewrite Hz. reflexivity.
  - intros v Hz Hv HK Hb.
    rewrite (process_axis_dz_split d v H1 H2). unfold deadzone_stage.
    replace (Z.abs v <? deadzone d) with true by (symmetry; apply Z.ltb_lt; lia).
    rewrite Hz. unfold edge_then_kernel, edge_stage, set_indzone; cbn.
    replace (0 <? lower d) with false by (symmetry; apply Z.ltb_ge; lia).
    replace (upper d <? 0) with false by (symmetry; apply Z.ltb_ge; lia).
    unfold kernel_stage, set_edges; cbn.
    destruct (kernel_ofs d + 1 <? kernel_sz d); [reflexivity|].
    replace (1 <? kernel_sz d) with false by (symmetry; apply Z.ltb_ge; lia).
    reflexivity.
  - intros v Hv.
    rewrite (process_axis_dz_split d v H1 H2). unfold deadzone_stage.
    replace (Z.abs v <? deadzone d) with false by (symmetry; apply Z.ltb_ge; lia).
    reflexivity.
Qed.

Lemma deadzone_entry_once_witness :
  let '(d1, o) := edge_then_kernel (set_indzone (analogfilter_axis
         (map_axes_axis None) (-32768) 32767 100 1 ANALOGFILTER_AVG) true) 0 in
  feed (analogfilter_axis (map_axes_axis None) (-32768) 32767 100 1
          ANALOGFILTER_AVG) [5; 7] = (d1, o :: [None]) /\
  indzone d1 = true.
Proof.
  exact (proj1 (deadzone_entry_once
    (analogfilter_axis (map_axes_axis None) (-32768) 32767 100 1
       ANALOGFILTER_AVG) ltac:(discriminate) ltac:(discriminate))
    5 [7] eq_refl ltac:(repeat constructor; cbn; lia)).
Defined.

Lemma axis_step_inv (d : axis_opts) (c : axis_call) :
  kernel_inv d -> kernel_inv (axis_step d c).
Proof.
  unfold kernel_inv. intros Hinv. destruct c as [l u dz b k|v]; cbn [axis_step].
  - pose proof (analogfilter_axis_fields d l u dz b k) as (_ & HK & Ho & _).
    lia.
  - unfold process_axis.
    destruct (mode d) eqn:E; cbn; auto;
      pose proof (prefilter_fields d v) as (_ & HK & Ho & _);
      destruct (prefilter d v) as [d1 [s|]]; cbn in *; try lia;
      unfold kernel_stage; destruct (kernel_ofs d1 + 1 <? kernel_sz d1) eqn:Hl;
      cbn; try apply Z.ltb_lt in Hl; try apply Z.ltb_ge in Hl; lia.
Qed.

Lemma axis_step_sz_pos (d : axis_opts) (c : axis_call) :
  1 <= kernel_sz d -> 1 <= kernel_sz (axis_step d c).
Proof.
  intros H. destruct c as [l u dz b k|v]; cbn [axis_step].
  - pose proof (analogfilter_axis_fields d l u dz b k) as (_ & HK & _). lia.
  - unfold process_axis.
    destruct (mode d) eqn:E; cbn; auto;
      pose proof (prefilter_fields d v) as (_ & HK & _);
      destruct (prefilter d v) as [d1 [s|]]; cbn in *; try lia;
      unfold kernel_stage; destruct (kernel_ofs d1 + 1 <? kernel_sz d1);
      cbn; lia.
Qed.

Lemma run_calls_cons (d : axis_opts) (c : axis_call) (cs : list axis_call) :
  run_calls d (c :: cs) = run_calls (axis_step d c) cs.
Proof. reflexivity. Qed.

Lemma run_calls_inv : forall cs d, kernel_inv d -> kernel_inv (run_calls d cs).
Proof.
  induction cs as [|c cs IH]; intros d H; [exact H|].
  rewrite run_calls_cons. apply IH, axis_step_inv, H.
Qed.

Lemma run_calls_sz_pos : forall cs d,
  1 <= kernel_sz d -> 1 <= kernel_sz (run_calls d cs).
Proof.
  induction cs as [|c cs IH]; intros d H; [exact H|].
  rewrite run_calls_cons. apply IH, axis_step_sz_pos, H.
Qed.

(** ** Claim C9, as stated: refuted.  An axis created by [map_axes] has
    kernel size 0 and offset 0, so the offset is not below the size. *)
Lemma kernel_offset_counterexample :
  ~ (kernel_ofs (map_axes_axis None) < kernel_sz (map_axes_axis None)).
Proof. cbn; lia. Qed.

(** ** Claim C9 (amended): a game-controller axis created by [map_axes]
    starts with kernel size 0 and offset 0; from there, after any sequence
    of configuration and sample calls, the size is within [0, 64] and the
    offset is below the size, a size of 0 counting as 1.  A configuration
    call on any axis, whatever it held before, clamps the size to [1, 64]
    and resets the offset to 0; from then on, through any sequence of
    configuration and sample calls, the size stays within [1, 64] and the
    offset strictly below it. *)
Theorem kernel_offset_bounded :
  (forall ai cs, kernel_inv (run_calls (map_axes_axis ai) cs)) /\
  (forall d l u dz b k,
     1 <= kernel_sz (analogfilter_axis d l u dz b k) <= 64 /\
     kernel_ofs (analogfilter_axis d l u dz b k) = 0) /\
  (forall d l u dz b k cs,
     let d' := run_calls (analogfilter_axis d l u dz b k) cs in
     1 <= kernel_sz d' <= 64 /\ 0 <= kernel_ofs d' < kernel_sz d').
Proof.
  split; [|split].
  - intros ai cs. apply run_calls_inv.
    destruct ai as [[mn mx]|]; unfold kernel_inv; cbn; lia.
  - intros d l u dz b k.
    pose proof (analogfilter_axis_fields d l u dz b k) as (_ & HK & Ho & _).
    split; assumption.
  - intros d l u dz b k cs. cbv zeta.
    pose proof (analogfilter_axis_fields d l u dz b k) as (_ & HK & Ho & _).
    assert (Hinv : kernel_inv (analogfilter_axis d l u dz b k))
      by (unfold kernel_inv; lia).
    pose proof (run_calls_inv cs _ Hinv) as [Hs Hof].
    pose proof (run_calls_sz_pos cs (analogfilter_axis d l u dz b k)
                  ltac:(lia)).
    lia.
Qed.

Lemma kernel_offset_bounded_witness :
  kernel_ofs (run_calls (analogfilter_axis (map_axes_axis None) 0 0 0 3
                          ANALOGFILTER_AVG) [Sample 5; Sample 6]) <
  kernel_sz (run_calls (analogfilter_axis (map_axes_axis None) 0 0 0 3
                          ANALOGFILTER_AVG) [Sample 5; Sample 6]).
Proof.
  pose proof (proj2 (proj2 kernel_offset_bounded) (map_axes_axis None) 0 0 0 3
                ANALOGFILTER_AVG [Sample 5; Sample 6]) as H.
  cbv zeta in H. exact (proj2 (proj2 H)).
Defined.

End AxisFilterProofs.

Module RegistryProofs.
Import AxisFilter Registry Scenarios.


Lemma nth_error_nth_eq {A : Type} (l : list A) (i : nat) (x d : A) :
  nth_error l i = Some x -> nth i l d = x.
Proof.
  revert i; induction l as [|y l IH]; intros [|i] H; cbn in *;
    try discriminate; [congruence | auto].
Qed.





(** ** Claim C4: without a label override, a device with both relative
    axes and a mouse button signature is a mouse with both cursor filters in
    pass-through mode; otherwise one with neither a mouse nor a joystick
    button signature and more than 84 buttons is a keyboard; otherwise it is
    a game controller. *)
Theorem classify_decision (fd : Z) (p : probe) (lbl : String.string)
  (dn ev : Z) :
  override p = None ->
  let '(bc, mb, jb) := key_caps p ev in
  let n := fst (classify_node fd p lbl dn ev) in
  (rel_caps p ev && mb = true ->
     dtype n = DEVNODE_MOUSE /\ mode (flt0 (cursor n)) = ANALOGFILTER_PASS /\
     mode (flt1 (cursor n)) = ANALOGFILTER_PASS) /\
  (rel_caps p ev && mb = false -> mb = false -> jb = false -> 84 < bc ->
     dtype n = DEVNODE_KEYBOARD) /\
  (rel_caps p ev && mb = false -> ~ (mb = false /\ jb = false /\ 84 < bc) ->
     dtype n = DEVNODE_GAME).
Proof.
  intros Hov. unfold classify_node.
  destruct (key_caps p ev) as [[bc mb] jb]. rewrite Hov.
  destruct (rel_caps p ev && mb) eqn:Hm; cbn.
  - split; [auto|split]; intros H; discriminate.
  - split; [intros H; discriminate|split].
    + intros _ -> -> Hbc. replace (84 <? bc) with true
        by (symmetry; apply Z.ltb_lt; exact Hbc). reflexivity.
    + intros _ Hn. destruct mb, jb; cbn; auto.
      destruct (84 <? bc) eqn:E; auto.
      apply Z.ltb_lt in E. exfalso; apply Hn; auto.
Qed.

Lemma classify_decision_witness :
  dtype (fst (classify_node 3 (mouse_probe 300) String.EmptyString 300 6)) =
  DEVNODE_MOUSE.
Proof.
  pose proof (classify_decision 3 (mouse_probe 300) String.EmptyString 300 6
                eq_refl) as H.
  vm_compute in H. destruct H as [H _]. exact (proj1 (H eq_refl)).
Defined.

Lemma scan_devnum_sound : forall ns i n id k,
  scan_devnum ns i n id = Some k ->
  (i <= k < i + n)%nat /\ exists x, nth_error ns (k - i) = Some x /\ devnum x = id.
Proof.
  induction ns as [|x ns IH]; intros i n id k H; [destruct n; discriminate|].
  destruct n as [|n]; [discriminate|]. cbn in H.
  destruct (devnum x =? id) eqn:E.
  - inversion H; subst. apply Z.eqb_eq in E. split; [lia|].
    exists x. rewrite Nat.sub_diag. auto.
  - destruct (IH _ _ _ _ H) as [Hb [y [Hy Hd]]]. split; [lia|].
    exists y. replace (k - i)%nat with (S (k - S i)) by lia. auto.
Qed.

Lemma scan_devnum_complete : forall ns i n id j x,
  (j < n)%nat -> nth_error ns j = Some x -> devnum x = id ->
  exists k, scan_devnum ns i n id = Some k.
Proof.
  induction ns as [|y ns IH]; intros i n id j x Hj Hx Hd;
    [destruct j; discriminate|].
  destruct n as [|n]; [lia|]. cbn.
  destruct (devnum y =? id) eqn:E; [eauto|].
  destruct j as [|j].
  - cbn in Hx. inversion Hx; subst. rewrite Z.eqb_refl in E. discriminate.
  - eapply IH with (j := j); eauto; lia.
Qed.





(** ** Claim C10, as stated: refuted.  With one game pad of identity 300
    registered, no registered device has the identity 0, yet a query of
    device 0 is a slot index below the count and answers [ARCAN_OK]. *)
Lemma analogstate_counterexample :
  let io := fst (got_device empty_iodev 3 (pad_probe 300)) in
  forallb (fun n => negb ((0 <? handle n) && (devnum n =? 0))) (nodes io) = true /\
  fst (platform_event_analogstate io 0 0 (0, 0, 0, 0, ANALOGFILTER_NONE)) =
    ARCAN_OK.
Proof. vm_compute. split; reflexivity. Qed.

(** ** Claim C10 (amended): the lookup of [platform_event_analogstate]
    fails exactly when the id (a negative id standing for the primary
    mouse id) is not below the device count and no slot below the count
    carries it as identity; the call then answers [NO_SUCH_OBJECT].  When
    the id resolves to a node that has no axis of that index for its class,
    it answers [BAD_RESOURCE].  In both cases the five outputs keep their
    values; otherwise it answers [ARCAN_OK] with the five outputs taken from
    the axis. *)
Theorem analogstate_results (io : iodev_state) (devid axisid : Z)
  (outs : analog_outs) :
  let id := if devid <? 0 then mouseid io else devid in
  let uaxis := if axisid <? 0 then axisid + 4294967296 else axisid in
  (lookup_devnode io devid = None <->
     n_devs io <= id /\
     forall j n, (j < Z.to_nat (n_devs io))%nat ->
       nth_error (nodes io) j = Some n -> devnum n <> id) /\
  (lookup_devnode io devid = None ->
     platform_event_analogstate io devid axisid outs =
       (ARCAN_ERRC_NO_SUCH_OBJECT, outs)) /\
  (forall i n, lookup_devnode io devid = Some i ->
     nth_error (nodes io) i = Some n -> node_axis n uaxis = None ->
     platform_event_analogstate io devid axisid outs =
       (ARCAN_ERRC_BAD_RESOURCE, outs)) /\
  (forall i n a, lookup_devnode io devid = Some i ->
     nth_error (nodes io) i = Some n -> node_axis n uaxis = Some a ->
     platform_event_analogstate io devid axisid outs =
       (ARCAN_OK, (lower a, upper a, deadzone a, kernel_sz a, mode a))).
Proof.
  intros id uaxis. split; [|split; [|split]].
  - unfold lookup_devnode. fold id. split.
    + destruct (id <? n_devs io) eqn:E; [discriminate|].
      apply Z.ltb_ge in E. intros H. split; [exact E|].
      intros j n Hj Hn Hd.
      destruct (scan_devnum_complete _ 0 _ _ _ _ Hj Hn Hd) as [k Hk].
      congruence.
    + intros [E Hno]. replace (id <? n_devs io) with false
        by (symmetry; apply Z.ltb_ge; exact E).
      destruct (scan_devnum (nodes io) 0 (Z.to_nat (n_devs io)) id) as [k|] eqn:Hs;
        [|reflexivity].
      destruct (scan_devnum_sound _ _ _ _ _ Hs) as [Hb [x [Hx Hd]]].
      rewrite Nat.sub_0_r in Hx. exfalso. apply (Hno k x); auto. lia.
  - intros H. unfold platform_event_analogstate, find_axis. rewrite H.
    reflexivity.
  - intros i n Hl Hn Ha. unfold platform_event_analogstate, find_axis.
    rewrite Hl, Hn. fold uaxis. rewrite Ha. reflexivity.
  - intros i n a Hl Hn Ha. unfold platform_event_analogstate, find_axis.
    rewrite Hl, Hn. fold uaxis. rewrite Ha. reflexivity.
Qed.

Lemma analogstate_results_witness :
  platform_event_analogstate (fst (got_device empty_iodev 3 (pad_probe 300)))
    300 5 (1, 2, 3, 4, ANALOGFILTER_NONE) =
  (ARCAN_ERRC_BAD_RESOURCE, (1, 2, 3, 4, ANALOGFILTER_NONE)).
Proof.
  pose proof (analogstate_results (fst (got_device empty_iodev 3 (pad_probe 300)))
                300 5 (1, 2, 3, 4, ANALOGFILTER_NONE)) as H.
  cbv zeta in H. destruct H as (_ & _ & H & _).
  apply (H 0%nat (nth 0 (nodes (fst (got_device empty_iodev 3 (pad_probe 300))))
                    zero_node)); vm_compute; reflexivity.
Defined.

End RegistryProofs.

Module DecoderProofs.
Import AxisFilter Registry Decoders.

(** A game handler with digital-hat decoding and no masks. *)
Definition hat_handler : evhandler :=
  mk_evhandler (Some Registry.defhandler_game) DEVNODE_GAME 0 0 true.

Definition hatrec (v : Z) : input_event := mk_ie EV_ABS ABS_HAT0X v.

Definition keyrec (code v : Z) : input_event := mk_ie EV_KEY code v.

Definition relrec (code v : Z) : input_event := mk_ie EV_REL code v.

Lemma upd_same (a : Z -> Z) (i v : Z) : upd a i v i = v.
Proof. unfold upd; destruct (Z.eq_dec i i); congruence. Qed.

Lemma upd_other (a : Z -> Z) (i v j : Z) : j <> i -> upd a i v j = a j.
Proof. intros H; unfold upd; destruct (Z.eq_dec j i); congruence. Qed.

Lemma defhandler_kbd_cons (kt : keytables) (dn statev : Z) r rs :
  defhandler_kbd kt dn statev (r :: rs) =
  let '(s1, e1) := kbd_record kt dn statev r in
  let '(s2, e2) := defhandler_kbd kt dn s1 rs in (s2, e1 ++ e2).
Proof. reflexivity. Qed.

(** C5 (code): a hat component whose value goes 0, +1, 0 from a centred
    hat emits exactly the activation and the release of its positive
    sub-id [64 + 2 ind + 1]. A move straight from -1 to +1 emits only the
    activation of the positive sub-id: the negative one is never released
    and both stay active, through [decode_hat] and through
    [defhandler_game]. *)
Theorem hat_decode_transitions :
  (forall (g : game_state) (dn ind : Z),
     hats g (ind * 2) = 0 -> hats g (ind * 2 + 1) = 0 ->
     let '(g1, e1) := decode_hat g dn ind 1 in
     let '(g2, e2) := decode_hat g1 dn ind 0 in
     e1 ++ e2 = [EvDigital dn (64 + ind * 2 + 1) true;
                 EvDigital dn (64 + ind * 2 + 1) false] /\
     hats g2 (ind * 2) = 0 /\ hats g2 (ind * 2 + 1) = 0) /\
  (let '(g1, e1) := defhandler_game hat_handler 300 zero_game
                      [hatrec (-1); hatrec 1] in
   e1 = [EvDigital 300 64 true; EvDigital 300 65 true] /\
   hats g1 0 = -1 /\ hats g1 1 = 1 /\
   snd (defhandler_game hat_handler 300 g1 [hatrec 0]) =
     [EvDigital 300 64 false; EvDigital 300 65 false]).
Proof.
  split.
  - intros g dn ind H0 H1.
    unfold decode_hat; cbn -[Z.mul Z.add upd].
    rewrite (upd_other _ (ind * 2 + 1) 1 (ind * 2)) by lia.
    rewrite H0; cbn -[Z.mul Z.add upd].
    rewrite upd_same; cbn -[Z.mul Z.add upd].
    rewrite upd_same, upd_other by lia.
    rewrite Z.add_assoc; split; [reflexivity | split; [rewrite upd_other by lia; exact H0 | reflexivity]].
  - vm_compute. repeat split.
Qed.

Lemma hat_decode_transitions_witness :
  let '(g1, e1) := decode_hat zero_game 7 1 1 in
  let '(g2, e2) := decode_hat g1 7 1 0 in
  e1 ++ e2 = [EvDigital 7 67 true; EvDigital 7 67 false] /\
  hats g2 2 = 0 /\ hats g2 3 = 0.
Proof.
  exact (proj1 hat_decode_transitions zero_game 7 1 eq_refl eq_refl).
Defined.

(** C6: a key record of value 1 emits one translated event with
    [active = true], value 0 one with [active = false], value 2 a release
    then a press; every event carries the modifier state after
    [update_state], which sets the modifier bit on press and clears it on
    release (for a modifier index in [0, 30], where the [int] shift
    [1 << modifier] is defined), and leaves the state alone for a key with
    no modifier. A batch
    is decoded record by record with the state threaded through. *)
Theorem kbd_press_release_repeat (kt : keytables) (dn statev code : Z) :
  let st1 := update_state kt code true statev in
  let st0 := update_state kt code false statev in
  let ev st a := EvTranslated dn code (lookup_keycode kt code) st
                   (lookup_character kt code st) a in
  defhandler_kbd kt dn statev [keyrec code 1] = (st1, [ev st1 true]) /\
  defhandler_kbd kt dn statev [keyrec code 0] = (st0, [ev st0 false]) /\
  defhandler_kbd kt dn statev [keyrec code 2] =
    (st1, [ev st1 false; ev st1 true]) /\
  (forall m, modifier_of kt code = Some m -> 0 <= m <= 30 ->
     Z.testbit st1 m = true /\ Z.testbit st0 m = false) /\
  (modifier_of kt code = None -> st1 = statev /\ st0 = statev) /\
  (forall r rs, defhandler_kbd kt dn statev (r :: rs) =
     let '(s1, e1) := kbd_record kt dn statev r in
     let '(s2, e2) := defhandler_kbd kt dn s1 rs in (s2, e1 ++ e2)).
Proof.
  cbn zeta.
  split; [reflexivity|]. split; [reflexivity|]. split; [reflexivity|].
  split; [|split; [|intros; apply defhandler_kbd_cons]].
  - intros m Hm Hpos; unfold update_state, wrapu32; rewrite Hm; split;
      rewrite Z.mod_pow2_bits_low by lia.
    + rewrite Z.lor_spec, Z.shiftl_spec by lia.
      replace (m - m) with 0 by lia; apply orb_true_r.
    + rewrite Z.land_spec, Z.lnot_spec, Z.shiftl_spec by lia.
      replace (m - m) with 0 by lia; cbn; apply andb_false_r.
  - intros Hn; unfold update_state; rewrite Hn; split; reflexivity.
Qed.

(** Keycode tables with shift on code 42 as modifier index 0. *)
Definition sample_tables : keytables :=
  mk_keytables (fun c => if c =? 42 then 304 else c) 304 303 306 305 301
    0 1 6 7 13 (fun c => c + 1000) (fun c st => c + st).

Lemma kbd_press_release_repeat_witness :
  defhandler_kbd sample_tables 5 0 [keyrec 42 1; keyrec 42 2; keyrec 42 0] =
    (0, [EvTranslated 5 42 1042 1 43 true;
         EvTranslated 5 42 1042 1 43 false; EvTranslated 5 42 1042 1 43 true;
         EvTranslated 5 42 1042 0 42 false]) /\
  (Z.testbit (update_state sample_tables 42 true 0) 0 = true /\
   Z.testbit (update_state sample_tables 42 false 1) 0 = false).
Proof.
  split; [vm_compute; reflexivity|].
  destruct (proj1 (proj2 (proj2 (proj2
    (kbd_press_release_repeat sample_tables 5 0 42)))) 0 eq_refl
    ltac:(lia)) as [Ha _].
  destruct (proj1 (proj2 (proj2 (proj2
    (kbd_press_release_repeat sample_tables 5 1 42)))) 0 eq_refl
    ltac:(lia)) as [_ Hb].
  exact (conj Ha Hb).
Defined.

(** An averaging cursor filter over two samples and a pass-through one. *)
Definition avg2 : axis_opts :=
  analogfilter_axis zero_axis (-32768) 32767 0 2 ANALOGFILTER_AVG.

Definition passf : axis_opts := with_mode zero_axis ANALOGFILTER_PASS.

(** C7 (code): with an averaging filter of two samples, the filter outputs
    15 for the deltas 10 and 20. The X path adds and reports the raw delta
    20 instead; the Y path adds the filter output 15 and reports it in
    place of the raw delta 20. The position is a [uint16_t]: 65535 plus a
    delta of 1 wraps to 0. With the pass-through filter mice get at
    registration, each accepted record adds the delta, clamped at zero, and
    reports it. *)
Theorem mouse_rel_paths :
  snd (feed avg2 [10; 20]) = [None; Some 15] /\
  snd (defhandler_mouse 300 (mk_cursor 0 0 avg2 avg2)
         [relrec REL_X 10; relrec REL_X 20]) = [EvAnalog 300 0 true 20 20] /\
  snd (defhandler_mouse 300 (mk_cursor 0 0 avg2 avg2)
         [relrec REL_Y 10; relrec REL_Y 20]) = [EvAnalog 300 1 true 15 15] /\
  snd (defhandler_mouse 300 (mk_cursor 65535 0 passf passf)
         [relrec REL_X 1]) = [EvAnalog 300 0 true 0 1] /\
  (forall dn x y v,
     let s := wrap16 v in
     snd (defhandler_mouse dn (mk_cursor x y passf passf) [relrec REL_X v]) =
       [EvAnalog dn 0 true (if x + s <? 0 then 0 else wrapu16 (x + s)) s] /\
     snd (defhandler_mouse dn (mk_cursor x y passf passf) [relrec REL_Y v]) =
       [EvAnalog dn 1 true (if y + s <? 0 then 0 else wrapu16 (y + s)) s]).
Proof.
  split; [vm_compute; reflexivity|].
  split; [vm_compute; reflexivity|].
  split; [vm_compute; reflexivity|].
  split; [vm_compute; reflexivity|].
  intros dn x y v; split; reflexivity.
Qed.

End DecoderProofs.

Module IdentityProofs.
Import Registry Identity.

Definition clamp_devnum (h : Z) : Z :=
  let d := wrapu16 h in if d <? MAX_DEVICES then d + MAX_DEVICES else d.

Definition label_of (nm : option (list Z)) : list Z :=
  match nm with Some l => l | None => unknown_label end.

Lemma clamp_devnum_range (h : Z) : MAX_DEVICES <= clamp_devnum h <= 65535.
Proof.
  unfold clamp_devnum, wrapu16, MAX_DEVICES.
  pose proof (Z.mod_pos_bound h 65536 ltac:(lia)).
  destruct (h mod 65536 <? 256) eqn:E; [apply Z.ltb_lt in E | apply Z.ltb_ge in E]; lia.
Qed.

(** [identify] as its final step: the clamp of the hash over the chosen
    seed and buffer. *)
Lemma identify_shape (p : id_probe) (path : list Z) :
  identify p path =
  match nodeid p with
  | None => None
  | Some nid =>
      let buf1 := match uniq p with Some b => b | None => repeat 0 buf_size end in
      Some (label_of (name p),
            clamp_devnum
              (if match uniq p with None => true | Some b => forallb (Z.eqb 0) b end
               then djb2 (djb2 (djb2 5381 (label_of (name p))) path)
                      (match evbit_bytes p with
                       | Some b => b
                       | None =>
                           list_set
                             (list_set buf1 7
                                (wrap8s (Z.lxor (nth 7 buf1 0)
                                           (Z.shiftr (version nid) 8)))) 6
                             (wrap8s (Z.lxor (nth 6 buf1 0) (version nid)))
                       end)
               else djb2 5381 buf1))
  end.
Proof.
  unfold identify. destruct (nodeid p) as [nid|]; [|reflexivity].
  cbn zeta. destruct (match uniq p with None => true | Some b => forallb (Z.eqb 0) b end);
    reflexivity.
Qed.

Lemma identify_range_gen (p : id_probe) (path lbl : list Z) (d : Z) :
  identify p path = Some (lbl, d) -> MAX_DEVICES <= d <= 65535.
Proof.
  rewrite identify_shape. destruct (nodeid p); [|discriminate].
  intros H; inversion H; subst. apply clamp_devnum_range.
Qed.

Lemma forallb_zero_false (b : list Z) :
  existsb (fun c => negb (c =? 0)) b = true -> forallb (Z.eqb 0) b = false.
Proof.
  induction b as [|c b IH]; cbn; [discriminate|].
  destruct c; cbn; auto.
Qed.

(** X1: [identify] fails exactly when [EVIOCGID] fails; otherwise the label
    is the driver name (["unknown"] when [EVIOCGNAME] fails) and the
    identity lies in [MAX_DEVICES .. 65535], above every slot index below
    [MAX_DEVICES]. *)
Theorem identify_result (p : id_probe) (path : list Z) :
  (identify p path = None <-> nodeid p = None) /\
  (forall lbl d, identify p path = Some (lbl, d) ->
     lbl = label_of (name p) /\ MAX_DEVICES <= d <= 65535).
Proof.
  split.
  - rewrite identify_shape. destruct (nodeid p); split; congruence.
  - intros lbl d H. split; [|exact (identify_range_gen p path lbl d H)].
    rewrite identify_shape in H. destruct (nodeid p); [|discriminate].
    inversion H; reflexivity.
Qed.

Definition sample_id : input_id := mk_input_id 1118 654 272.

Lemma identify_result_witness :
  match identify (mk_id_probe None (Some sample_id) None None) [101; 118] with
  | Some (lbl, d) => lbl = unknown_label /\ MAX_DEVICES <= d <= 65535
  | None => False
  end.
Proof.
  destruct (identify (mk_id_probe None (Some sample_id) None None) [101; 118])
    as [[lbl d]|] eqn:E.
  - exact (proj2 (identify_result _ _) lbl d E).
  - vm_compute in E; discriminate.
Defined.

(** X2: when [EVIOCGUNIQ] answers a buffer with a non-zero byte, the
    identity is the clamped hash of that buffer alone: it does not depend on
    the label, the path, the vendor, product or version, or the event
    bits. *)
Theorem identify_uniq_only (p : id_probe) (path b : list Z) :
  nodeid p <> None -> uniq p = Some b ->
  existsb (fun c => negb (c =? 0)) b = true ->
  option_map snd (identify p path) = Some (clamp_devnum (djb2 5381 b)).
Proof.
  intros Hn Hu Hb. rewrite identify_shape.
  destruct (nodeid p); [|congruence]. rewrite Hu, (forallb_zero_false b Hb).
  reflexivity.
Qed.

Lemma identify_uniq_only_witness :
  nodeid (mk_id_probe (Some [80]) (Some sample_id) (Some [0; 7; 0; 0; 0; 0; 0; 0])
            None) <> None /\
  option_map snd (identify (mk_id_probe (Some [80]) (Some sample_id)
                              (Some [0; 7; 0; 0; 0; 0; 0; 0]) None) [47])
  = Some (clamp_devnum (djb2 5381 [0; 7; 0; 0; 0; 0; 0; 0])).
Proof.
  split; [discriminate|].
  apply identify_uniq_only; [discriminate | reflexivity | reflexivity].
Defined.

(** X3: when [EVIOCGUNIQ] fails or answers only zero bytes and
    [EVIOCGBIT(0, EV_MAX)] succeeds, the answer of the latter overwrites
    all of [buf], version bytes included: the identity is the clamped hash of
    the label, the path and the event-type bits, the same for every
    vendor, product and version. *)
Theorem identify_fallback_ignores_ids (nm u : option (list Z)) (e path : list Z)
  (nid : input_id) :
  (forall b, u = Some b -> forallb (Z.eqb 0) b = true) ->
  identify (mk_id_probe nm (Some nid) u (Some e)) path =
    Some (label_of nm, clamp_devnum (djb2 (djb2 (djb2 5381 (label_of nm)) path) e)).
Proof.
  intros Hu. rewrite identify_shape; cbn [nodeid uniq evbit_bytes name].
  destruct u as [b|]; [rewrite (Hu b eq_refl)|]; reflexivity.
Qed.

Lemma identify_fallback_ignores_ids_witness :
  identify (mk_id_probe (Some [80]) (Some sample_id) None (Some [7; 0; 0; 0; 0; 0; 0; 0])) [47] =
  identify (mk_id_probe (Some [80]) (Some (mk_input_id 1 2 3)) None
              (Some [7; 0; 0; 0; 0; 0; 0; 0])) [47].
Proof.
  rewrite (identify_fallback_ignores_ids (Some [80]) None _ [47] sample_id)
    by discriminate.
  rewrite (identify_fallback_ignores_ids (Some [80]) None _ [47] (mk_input_id 1 2 3))
    by discriminate.
  reflexivity.
Defined.

End IdentityProofs.

Module LifecycleProofs.
Import AxisFilter Registry Lifecycle Scenarios.
Import (notations) String.

Lemma scan_devnum_map : forall ns ns' i n d,
  map devnum ns = map devnum ns' -> scan_devnum ns i n d = scan_devnum ns' i n d.
Proof.
  induction ns as [|x ns IH]; intros [|y ns'] i n d H; cbn in H;
    try discriminate; [reflexivity|].
  inversion H as [[Hd Hm]]. destruct n; cbn; [reflexivity|].
  rewrite Hd, (IH ns' (S i) n d Hm). reflexivity.
Qed.

Lemma map_devnum_list_set : forall ns k x,
  (forall y, nth_error ns k = Some y -> devnum x = devnum y) ->
  map devnum (list_set ns k x) = map devnum ns.
Proof.
  induction ns as [|y ns IH]; intros [|k] x H; cbn; try reflexivity.
  - rewrite (H y eq_refl). reflexivity.
  - rewrite (IH k x H). reflexivity.
Qed.

Lemma lookup_devnode_same : forall io io' d,
  n_devs io' = n_devs io -> mouseid io' = mouseid io ->
  map devnum (nodes io') = map devnum (nodes io) ->
  lookup_devnode io' d = lookup_devnode io d.
Proof.
  intros io io' d Hn Hm Hd. unfold lookup_devnode.
  rewrite Hn, Hm, (scan_devnum_map _ _ _ _ _ Hd). reflexivity.
Qed.

Lemma nth_error_list_set_same {A : Type} : forall (l : list A) k x y,
  nth_error l k = Some y -> nth_error (list_set l k x) k = Some x.
Proof.
  induction l as [|z l IH]; intros [|k] x y H; cbn in *; try discriminate;
    [reflexivity | eauto].
Qed.

Lemma nth_error_list_set_other {A : Type} : forall (l : list A) k j x,
  k <> j -> nth_error (list_set l k x) j = nth_error l j.
Proof.
  induction l as [|z l IH]; intros [|k] [|j] x H; cbn; try reflexivity;
    [congruence | apply IH; lia].
Qed.

Lemma length_list_set {A : Type} : forall (l : list A) k x,
  length (list_set l k x) = length l.
Proof. induction l as [|z l IH]; intros [|k] x; cbn; auto. Qed.

Lemma set_node_axis_fields (n : devnode) (ax : Z) (a : axis_opts) :
  devnum (set_node_axis n ax a) = devnum n /\
  dtype (set_node_axis n ax a) = dtype n /\
  handle (set_node_axis n ax a) = handle n /\
  label (set_node_axis n ax a) = label n.
Proof.
  unfold set_node_axis; destruct (dtype n) eqn:E;
    repeat match goal with |- context [if ?b then _ else _] => destruct b end;
    cbn; auto.
Qed.

Lemma node_axis_set_same (n : devnode) (ax : Z) (a0 a : axis_opts) :
  node_axis n ax = Some a0 -> node_axis (set_node_axis n ax a) ax = Some a.
Proof.
  intros H. unfold node_axis in H. unfold set_node_axis.
  destruct (dtype n) eqn:E; try discriminate.
  - destruct (ax =? 0) eqn:E0; [|discriminate].
    unfold node_axis; cbn. rewrite E0. reflexivity.
  - destruct (ax <? axes (game n)) eqn:L; [|discriminate].
    unfold node_axis; cbn. rewrite L. eapply nth_error_list_set_same; exact H.
  - destruct (ax =? 0) eqn:E0.
    + unfold node_axis; cbn. rewrite E0. reflexivity.
    + destruct (ax =? 1) eqn:E1; [|discriminate].
      unfold node_axis; cbn. rewrite E0, E1. reflexivity.
Qed.

Lemma node_axis_set_other (n : devnode) (ax ax' : Z) (a : axis_opts) :
  0 <= ax -> 0 <= ax' -> ax <> ax' ->
  node_axis (set_node_axis n ax a) ax' = node_axis n ax'.
Proof.
  intros H0 H1 Hne. unfold set_node_axis.
  destruct (dtype n) eqn:E; [| | |reflexivity|reflexivity|reflexivity].
  - destruct (ax =? 0) eqn:E0; [|reflexivity]. apply Z.eqb_eq in E0; subst.
    unfold node_axis; cbn; rewrite E.
    destruct (ax' =? 0) eqn:E0'; [apply Z.eqb_eq in E0'; lia | reflexivity].
  - destruct (ax <? axes (game n)) eqn:L; [|reflexivity].
    unfold node_axis; cbn; rewrite E.
    destruct (ax' <? axes (game n)); [|reflexivity].
    apply nth_error_list_set_other. intros Heq; apply Z2Nat.inj in Heq; lia.
  - destruct (ax =? 0) eqn:E0.
    + apply Z.eqb_eq in E0; subst. unfold node_axis; cbn; rewrite E.
      destruct (ax' =? 0) eqn:E0'; [apply Z.eqb_eq in E0'; lia | reflexivity].
    + destruct (ax =? 1) eqn:E1; [|reflexivity]. apply Z.eqb_eq in E1; subst.
      unfold node_axis; cbn; rewrite E.
      destruct (ax' =? 0); [reflexivity|].
      destruct (ax' =? 1) eqn:E1'; [apply Z.eqb_eq in E1'; lia | reflexivity].
Qed.

Lemma analogfilter_axis_kernel_sz (a : axis_opts) (l u dz b : Z) (k : filter_kind) :
  kernel_sz (analogfilter_axis a l u dz b k) = Z.max 1 (Z.min 64 b).
Proof.
  unfold analogfilter_axis, set_analogstate; cbn.
  destruct (64 <? b) eqn:E1; [apply Z.ltb_lt in E1 | apply Z.ltb_ge in E1].
  - cbn. lia.
  - destruct (b <=? 0) eqn:E2; [apply Z.leb_le in E2 | apply Z.leb_gt in E2]; lia.
Qed.

Lemma uaxis_nonneg (axisid : Z) :
  -2147483648 <= axisid -> 0 <= uaxis axisid.
Proof. unfold uaxis; destruct (axisid <? 0) eqn:E; [apply Z.ltb_lt in E | apply Z.ltb_ge in E]; lia. Qed.

Lemma uaxis_inj (a b : Z) :
  -2147483648 <= a < 2147483648 -> -2147483648 <= b < 2147483648 ->
  uaxis a = uaxis b -> a = b.
Proof.
  unfold uaxis.
  destruct (a <? 0) eqn:Ea; [apply Z.ltb_lt in Ea | apply Z.ltb_ge in Ea];
  destruct (b <? 0) eqn:Eb; [apply Z.ltb_lt in Eb | apply Z.ltb_ge in Eb
                             | apply Z.ltb_lt in Eb | apply Z.ltb_ge in Eb]; lia.
Qed.

Lemma analogfilter_lookup (io : iodev_state) (devid axisid l u dz b : Z)
  (k : filter_kind) (d : Z) :
  lookup_devnode (platform_event_analogfilter io devid axisid l u dz b k) d =
  lookup_devnode io d.
Proof.
  unfold platform_event_analogfilter.
  destruct (lookup_devnode io devid) as [i|]; [|reflexivity].
  destruct (nth_error (nodes io) i) as [n|] eqn:Hn; [|reflexivity].
  destruct (node_axis n (uaxis axisid)); [|reflexivity].
  apply lookup_devnode_same; cbn; auto.
  apply map_devnum_list_set. intros y Hy. rewrite Hn in Hy. inversion Hy; subst.
  apply set_node_axis_fields.
Qed.

Lemma analogstate_uaxis (io : iodev_state) (devid axisid : Z) outs :
  platform_event_analogstate io devid axisid outs =
  match find_axis io devid (uaxis axisid) with
  | (None, gotnode) =>
      (if gotnode then ARCAN_ERRC_BAD_RESOURCE else ARCAN_ERRC_NO_SUCH_OBJECT, outs)
  | (Some a, _) => (ARCAN_OK, (lower a, upper a, deadzone a, kernel_sz a, mode a))
  end.
Proof. reflexivity. Qed.

(** X4: setting the filter of an axis that [find_axis] finds, then querying
    it with [platform_event_analogstate], returns [ARCAN_OK] and the bounds,
    the deadzone and the mode that were set, with the kernel size clamped
    to [1, 64]. *)
Theorem analogfilter_then_analogstate (io : iodev_state) (devid axisid l u dz b : Z)
  (kind : filter_kind) (outs : analog_outs) (a : axis_opts) :
  find_axis io devid (uaxis axisid) = (Some a, true) ->
  platform_event_analogstate
    (platform_event_analogfilter io devid axisid l u dz b kind) devid axisid outs =
  (ARCAN_OK, (l, u, dz, Z.max 1 (Z.min 64 b), kind)).
Proof.
  intros Hf. rewrite analogstate_uaxis. unfold find_axis.
  rewrite analogfilter_lookup.
  unfold find_axis in Hf. destruct (lookup_devnode io devid) as [i|] eqn:Hl;
    [|discriminate].
  destruct (nth_error (nodes io) i) as [n|] eqn:Hn; [|discriminate].
  destruct (node_axis n (uaxis axisid)) as [a0|] eqn:Ha; [|discriminate].
  inversion Hf; subst a0.
  unfold platform_event_analogfilter. rewrite Hl, Hn, Ha. cbn [nodes].
  rewrite (nth_error_list_set_same _ _ _ _ Hn).
  rewrite (node_axis_set_same _ _ _ _ Ha).
  pose proof (AxisFilterProofs.analogfilter_axis_fields a l u dz b kind) as (Hm & _ & _ & Hlo & Hup & Hdz).
  rewrite Hm, Hlo, Hup, Hdz, analogfilter_axis_kernel_sz. reflexivity.
Qed.

(** One game pad of identity 300 in slot 0. *)
Definition pad_io : iodev_state := fst (got_device empty_iodev 3 (pad_probe 300)).

Lemma analogfilter_then_analogstate_witness :
  find_axis pad_io 300 (uaxis 0) = (Some (map_axes_axis None), true) /\
  platform_event_analogstate (platform_event_analogfilter pad_io 300 0 (-50) 50 4 100
                                ANALOGFILTER_ALAST) 300 0 (0, 0, 0, 0, ANALOGFILTER_NONE) =
  (ARCAN_OK, (-50, 50, 4, 64, ANALOGFILTER_ALAST)).
Proof.
  split; [vm_compute; reflexivity|].
  exact (analogfilter_then_analogstate pad_io 300 0 (-50) 50 4 100 ANALOGFILTER_ALAST
           (0, 0, 0, 0, ANALOGFILTER_NONE) (map_axes_axis None)
           ltac:(vm_compute; reflexivity)).
Defined.

(** X5: [platform_event_analogfilter] changes no other axis: a query of a
    device that resolves to another slot, or of another axis index of the
    same device, answers as before the call. *)
Theorem analogfilter_isolated (io : iodev_state) (devid axisid devid' axisid' l u dz b : Z)
  (kind : filter_kind) (outs : analog_outs) :
  -2147483648 <= axisid < 2147483648 -> -2147483648 <= axisid' < 2147483648 ->
  lookup_devnode io devid <> lookup_devnode io devid' \/ axisid <> axisid' ->
  platform_event_analogstate
    (platform_event_analogfilter io devid axisid l u dz b kind) devid' axisid' outs =
  platform_event_analogstate io devid' axisid' outs.
Proof.
  intros Ha Ha' Hdiff. rewrite !analogstate_uaxis. unfold find_axis.
  rewrite analogfilter_lookup.
  unfold platform_event_analogfilter.
  destruct (lookup_devnode io devid) as [i|] eqn:Hl; [|reflexivity].
  destruct (nth_error (nodes io) i) as [n|] eqn:Hn; [|reflexivity].
  destruct (node_axis n (uaxis axisid)) as [a0|] eqn:Hax; [|reflexivity].
  destruct (lookup_devnode io devid') as [j|] eqn:Hl'; [|reflexivity].
  cbn [nodes]. destruct (Nat.eq_dec i j) as [<-|Hij].
  - rewrite (nth_error_list_set_same _ _ _ _ Hn), Hn.
    destruct Hdiff as [Hd|Hd]; [congruence|].
    rewrite node_axis_set_other; [reflexivity | apply uaxis_nonneg; lia
                                  | apply uaxis_nonneg; lia|].
    intros He; apply Hd, uaxis_inj; assumption.
  - rewrite nth_error_list_set_other by exact Hij. reflexivity.
Qed.

Lemma analogfilter_isolated_witness :
  platform_event_analogstate (platform_event_analogfilter pad_io 300 0 (-50) 50 4 100
                                ANALOGFILTER_ALAST) 300 1 (0, 0, 0, 0, ANALOGFILTER_NONE) =
  platform_event_analogstate pad_io 300 1 (0, 0, 0, 0, ANALOGFILTER_NONE).
Proof.
  apply analogfilter_isolated; [lia | lia | right; lia].
Defined.

(** X6: [platform_event_devlabel] resolves only slot indices and [-1]: an
    identity that [identify] produces gets ["no device"] while at most
    [MAX_DEVICES] devices are counted, and so does every id below [-1],
    although [lookup_devnode] resolves both kinds. *)
Theorem devlabel_slot_indices_only (io : iodev_state) :
  (forall (p : Identity.id_probe) (path lbl : list Z) (d : Z),
     Identity.identify p path = Some (lbl, d) -> n_devs io <= MAX_DEVICES ->
     platform_event_devlabel io d = "no device"%string) /\
  (forall devid, devid < -1 -> platform_event_devlabel io devid = "no device"%string).
Proof.
  split.
  - intros p path lbl d Hid Hn.
    pose proof (IdentityProofs.identify_range_gen p path lbl d Hid) as Hr.
    unfold platform_event_devlabel, MAX_DEVICES in *.
    destruct (d =? -1) eqn:E1; [apply Z.eqb_eq in E1; lia|].
    replace (n_devs io <=? d) with true by (symmetry; apply Z.leb_le; lia).
    rewrite orb_true_r. reflexivity.
  - intros devid Hd. unfold platform_event_devlabel.
    destruct (devid =? -1) eqn:E1; [apply Z.eqb_eq in E1; lia|].
    replace (devid <? 0) with true by (symmetry; apply Z.ltb_lt; lia).
    reflexivity.
Qed.

Definition sample_identity : Z :=
  match Identity.identify
          (Identity.mk_id_probe None (Some IdentityProofs.sample_id) None None)
          [101; 118] with
  | Some (_, d) => d
  | None => 0
  end.

Lemma devlabel_slot_indices_only_witness :
  platform_event_devlabel pad_io sample_identity = "no device"%string /\
  platform_event_devlabel pad_io (-2) = "no device"%string.
Proof.
  split.
  - apply (proj1 (devlabel_slot_indices_only pad_io)
             (Identity.mk_id_probe None (Some IdentityProofs.sample_id) None None)
             [101; 118] Identity.unknown_label);
      first [vm_compute; reflexivity | vm_compute; discriminate].
  - apply (proj2 (devlabel_slot_indices_only pad_io)); lia.
Defined.

Lemma deinit_nodes_closed : forall ns n,
  snd (deinit_nodes ns n) = filter (fun h => 0 <? h) (map handle (firstn n ns)).
Proof.
  induction ns as [|x ns IH]; intros [|n]; cbn; try reflexivity.
  specialize (IH n). destruct (deinit_nodes ns n) as [r c]; cbn in *.
  destruct (0 <? handle x); cbn; congruence.
Qed.

Lemma scan_devnum_zero : forall ns i d, scan_devnum ns i 0 d = None.
Proof. intros [|x ns] i d; reflexivity. Qed.

Lemma caps_loop_zero : forall ns rv, caps_loop ns 0 rv = rv.
Proof. intros [|x ns] rv; reflexivity. Qed.

(** X7: [platform_event_deinit] closes the console descriptor when it is
    not standard input, then the inotify descriptor when one is open, then
    the positive handles of the counted slots in slot order; afterwards the
    console descriptor is standard input, the inotify descriptor is -1, the
    mute flag is cleared when the console is a terminal, the device count
    is 0, no id resolves to a device any more (so every filter query
    answers [ARCAN_ERRC_NO_SUCH_OBJECT]) and no capability is reported. *)
Theorem deinit_forgets_devices (is_tty : bool) (gs : gstate_t) (io : iodev_state) :
  0 <= mouseid io ->
  let '(gs', io', reqs, closed) := platform_event_deinit is_tty gs io in
  closed = (if tty gs =? STDIN_FILENO then [] else [tty gs]) ++
           (if notify gs =? -1 then [] else [notify gs]) ++
           filter (fun h => 0 <? h) (map handle (firstn (Z.to_nat (n_devs io)) (nodes io))) /\
  tty gs' = STDIN_FILENO /\ notify gs' = -1 /\ mute gs' = mute gs && negb is_tty /\
  n_devs io' = 0 /\
  (forall d, lookup_devnode io' d = None) /\
  (forall d a outs, platform_event_analogstate io' d a outs =
                    (ARCAN_ERRC_NO_SUCH_OBJECT, outs)) /\
  (forall c, platform_input_capabilities io' c = false).
Proof.
  intros Hm. unfold platform_event_deinit.
  pose proof (deinit_nodes_closed (nodes io) (Z.to_nat (n_devs io))) as Hc.
  destruct (deinit_nodes (nodes io) (Z.to_nat (n_devs io))) as [ns c].
  cbn [snd] in Hc.
  assert (Hl : forall d, lookup_devnode (mk_iodev 0 (mouseid io) ns (pollset io)) d = None).
  { intros d. unfold lookup_devnode; cbn [n_devs mouseid nodes].
    destruct (d <? 0) eqn:Ed.
    - replace (mouseid io <? 0) with false by (symmetry; apply Z.ltb_ge; lia).
      apply scan_devnum_zero.
    - replace (d <? 0) with false by exact (eq_sym Ed). apply scan_devnum_zero. }
  destruct is_tty, (mute gs) eqn:Hmu; cbn [andb];
  destruct (tty gs =? STDIN_FILENO) eqn:Et; cbn [negb tty notify mute kbmode leds];
  rewrite ?Et; cbn [negb];
  destruct (notify gs =? -1) eqn:En; cbn [negb tty notify mute kbmode leds];
  rewrite ?En; cbn [negb tty notify mute];
  (split; [rewrite ?Hc; reflexivity|]);
  (split; [try apply Z.eqb_eq in Et; first [exact Et | reflexivity]|]);
  (split; [try apply Z.eqb_eq in En; first [exact En | reflexivity]|]);
  (split; [first [exact Hmu | reflexivity]|]);
  (split; [reflexivity|]); (split; [exact Hl|]);
  (split;
   [ intros d a outs; unfold platform_event_analogstate, find_axis;
     rewrite Hl; reflexivity
   | intros cp; unfold platform_input_capabilities; cbn [n_devs nodes];
     rewrite caps_loop_zero; reflexivity ]).
Qed.

(** A console on descriptor 5 in muted mode, and an inotify descriptor 6. *)
Definition sample_gstate : gstate_t := mk_gstate K_OFF 2 true 5 6.

Lemma deinit_forgets_devices_witness :
  let '(gs', io', reqs, closed) := platform_event_deinit true sample_gstate pad_io in
  closed = [5; 6; 3] /\ tty gs' = STDIN_FILENO /\ notify gs' = -1 /\
  mute gs' = false /\ n_devs io' = 0.
Proof.
  pose proof (deinit_forgets_devices true sample_gstate pad_io
                ltac:(vm_compute; discriminate)) as H.
  destruct (platform_event_deinit true sample_gstate pad_io)
    as [[[gs' io'] reqs] closed].
  destruct H as (H1 & H2 & H3 & H4 & H5 & _).
  split; [rewrite H1; vm_compute; reflexivity|].
  split; [exact H2|]. split; [exact H3|]. split; [exact H4 | exact H5].
Defined.

(** The result of [disconnect] on a counted slot whose identity no other
    slot carries. *)
Lemma disconnect_spec (io : iodev_state) (k : nat) (n : devnode) :
  nth_error (nodes io) k = Some n -> Z.of_nat k < n_devs io ->
  (forall i m, nth_error (nodes io) i = Some m -> devnum m = devnum n -> i = k) ->
  disconnect io k =
  (mk_iodev (if Z.of_nat k =? n_devs io - 1 then n_devs io - 1 else n_devs io)
     (mouseid io) (list_set (nodes io) k (set_handle n 0))
     (list_set (pollset io) k (0, 0)), [handle n]).
Proof.
  intros Hk Hlt Hu. unfold disconnect.
  rewrite (RegistryProofs.nth_error_nth_eq _ _ _ zero_node Hk).
  destruct (RegistryProofs.scan_devnum_complete (nodes io) 0 (Z.to_nat (n_devs io))
              (devnum n) k n ltac:(lia) Hk eq_refl) as [k' Hs].
  pose proof (RegistryProofs.scan_devnum_sound _ _ _ _ _ Hs) as (_ & x & Hx & Hdx).
  rewrite Nat.sub_0_r in Hx. pose proof (Hu k' x Hx Hdx) as ->.
  rewrite Hs. reflexivity.
Qed.

(** X8: [disconnect] of a counted slot whose identity no other slot
    carries closes the slot's descriptor, sets its handle to 0 and clears
    its poll entry, keeps the slot and its identity, and decrements the
    device count only when the slot is the last counted one. *)
Theorem disconnect_slot (io : iodev_state) (k : nat) (n : devnode) :
  nth_error (nodes io) k = Some n -> Z.of_nat k < n_devs io ->
  (forall i m, nth_error (nodes io) i = Some m -> devnum m = devnum n -> i = k) ->
  let '(io', closed) := disconnect io k in
  closed = [handle n] /\
  nth_error (nodes io') k = Some (set_handle n 0) /\
  (forall j, j <> k -> nth_error (nodes io') j = nth_error (nodes io) j) /\
  pollset io' = list_set (pollset io) k (0, 0) /\
  n_devs io' = (if Z.of_nat k =? n_devs io - 1 then n_devs io - 1 else n_devs io) /\
  mouseid io' = mouseid io.
Proof.
  intros Hk Hlt Hu. rewrite (disconnect_spec io k n Hk Hlt Hu); cbn.
  split; [reflexivity|]. split; [exact (nth_error_list_set_same _ _ _ _ Hk)|].
  split; [intros j Hj; apply nth_error_list_set_other; congruence|].
  auto.
Qed.

(** Two pads of identities 300 and 301 in slots 0 and 1. *)
Definition two_pads : iodev_state :=
  fst (got_device pad_io 4 (pad_probe 301)).

Lemma slot_unique_300 : forall i m,
  nth_error (nodes two_pads) i = Some m -> devnum m = 300 -> i = 0%nat.
Proof.
  intros i m Hi Hd.
  assert (Hm : devnum (nth i (nodes two_pads) zero_node) = 300)
    by (rewrite (RegistryProofs.nth_error_nth_eq _ _ _ _ Hi); exact Hd).
  assert (Hl : (i < length (nodes two_pads))%nat)
    by (apply nth_error_Some; rewrite Hi; discriminate).
  replace (length (nodes two_pads)) with 8%nat in Hl by (vm_compute; reflexivity).
  do 8 (destruct i as [|i]; [vm_compute in Hm; first [reflexivity | discriminate] |]).
  lia.
Qed.

Lemma disconnect_slot_witness :
  let '(io', closed) := disconnect two_pads 0 in
  closed = [3] /\
  nth_error (nodes io') 0 = Some (set_handle (nth 0 (nodes two_pads) zero_node) 0) /\
  (forall j, j <> 0%nat -> nth_error (nodes io') j = nth_error (nodes two_pads) j) /\
  pollset io' = list_set (pollset two_pads) 0 (0, 0) /\
  n_devs io' = 2 /\ mouseid io' = mouseid two_pads.
Proof.
  pose proof (disconnect_slot two_pads 0 (nth 0 (nodes two_pads) zero_node)
                ltac:(vm_compute; reflexivity) ltac:(vm_compute; reflexivity)
                ltac:(intros i m Hi Hd; apply (slot_unique_300 i m Hi); rewrite Hd; vm_compute; reflexivity)) as H.
  destruct (disconnect two_pads 0) as [io' closed].
  destruct H as (H1 & H2 & H3 & H4 & H5 & H6).
  split; [rewrite H1; reflexivity|]. split; [exact H2|]. split; [exact H3|].
  split; [exact H4|]. split; [rewrite H5; reflexivity | exact H6].
Defined.

Lemma find_slot_hole_kept : forall ns i0 h dn,
  (forall j m, nth_error ns j = Some m -> devnum m <> dn) ->
  find_slot ns i0 (Some h) dn = Fresh (Some h).
Proof.
  induction ns as [|x ns IH]; intros i0 h dn H; [reflexivity|]. cbn.
  destruct (devnum x =? dn) eqn:E.
  - apply Z.eqb_eq in E. exfalso; exact (H 0%nat x eq_refl E).
  - apply IH. intros j m Hj; exact (H (S j) m Hj).
Qed.

Lemma find_slot_first_hole : forall k ns i0 x dn,
  nth_error ns k = Some x -> handle x <= 0 ->
  (forall j m, (j < k)%nat -> nth_error ns j = Some m -> 0 < handle m) ->
  (forall j m, j <> k -> nth_error ns j = Some m -> devnum m <> dn) ->
  find_slot ns i0 None dn = Fresh (Some (i0 + k)%nat).
Proof.
  induction k as [|k IH]; intros [|y ns] i0 x dn Hk Hx Hb Hd; try discriminate.
  - cbn in Hk; inversion Hk; subst. cbn.
    replace (handle x <=? 0) with true by (symmetry; apply Z.leb_le; lia).
    rewrite Nat.add_0_r. apply find_slot_hole_kept.
    intros j m Hj; exact (Hd (S j) m ltac:(lia) Hj).
  - cbn. pose proof (Hb 0%nat y ltac:(lia) eq_refl) as Hy.
    replace (handle y <=? 0) with false by (symmetry; apply Z.leb_gt; lia). cbn.
    replace (devnum y =? dn) with false
      by (symmetry; apply Z.eqb_neq; exact (Hd 0%nat y ltac:(lia) eq_refl)).
    replace (i0 + S k)%nat with (S i0 + k)%nat by lia.
    apply (IH ns (S i0) x dn Hk Hx).
    + intros j m Hj Hm; exact (Hb (S j) m ltac:(lia) Hm).
    + intros j m Hj Hm; exact (Hd (S j) m ltac:(lia) Hm).
Qed.

Lemma classify_node_devnum (fd : Z) (p : probe) (lbl : String.string) (dn ev : Z) :
  devnum (fst (classify_node fd p lbl dn ev)) = dn.
Proof.
  unfold classify_node. destruct (key_caps p ev) as [[bc mb] jb].
  destruct (override p); [reflexivity|].
  repeat match goal with |- context [if ?b then _ else _] => destruct b end;
    reflexivity.
Qed.

(** X9: below the device limit, when the first slot without a live handle
    is a disconnected device's own slot and that slot is not the last
    counted one, the device's reconnection goes through the fresh-device
    path: it is placed back into its slot but the device count grows by
    one, so the count exceeds the devices present. *)
Theorem reconnect_after_disconnect (io : iodev_state) (k : nat) (n : devnode)
  (fd : Z) (p : probe) (lbl : String.string) (ev : Z) :
  nth_error (nodes io) k = Some n -> Z.of_nat k + 1 < n_devs io ->
  n_devs io < MAX_DEVICES ->
  (forall i m, nth_error (nodes io) i = Some m -> devnum m = devnum n -> i = k) ->
  (forall j m, (j < k)%nat -> nth_error (nodes io) j = Some m -> 0 < handle m) ->
  fstat_ok p = true -> is_chr_or_blk p = true ->
  ident p = Some (lbl, devnum n) -> evbits p = Some ev ->
  let '(io2, closed) := got_device (fst (disconnect io k)) fd p in
  n_devs io2 = n_devs io + 1 /\
  nth_error (nodes io2) k = Some (fst (classify_node fd p lbl (devnum n) ev)) /\
  closed = [].
Proof.
  intros Hk Hlt Hmax Hu Hb Hf Hc Hi He.
  rewrite (disconnect_spec io k n Hk ltac:(lia) Hu).
  replace (Z.of_nat k =? n_devs io - 1) with false
    by (symmetry; apply Z.eqb_neq; lia).
  cbn [fst]. unfold got_device. rewrite Hf, Hc, Hi. cbn [negb n_devs].
  replace (MAX_DEVICES <=? n_devs io) with false
    by (symmetry; apply Z.leb_gt; exact Hmax).
  rewrite He.
  pose proof (classify_node_devnum fd p lbl (devnum n) ev) as Hdn.
  destruct (classify_node fd p lbl (devnum n) ev) as [node is_mouse]. cbn in Hdn.
  set (ns := list_set (nodes io) k (set_handle n 0)).
  assert (Hfs : find_slot ns 0 None (devnum n) = Fresh (Some k)).
  { apply (find_slot_first_hole k ns 0 (set_handle n 0)).
    - exact (nth_error_list_set_same _ _ _ _ Hk).
    - cbn; lia.
    - intros j m Hj Hm. unfold ns in Hm.
      rewrite nth_error_list_set_other in Hm by lia. exact (Hb j m Hj Hm).
    - intros j m Hj Hm Hd. unfold ns in Hm.
      rewrite nth_error_list_set_other in Hm by congruence.
      exact (Hj (Hu j m Hm Hd)). }
  assert (Hreg : forall io1, nodes io1 = ns -> n_devs io1 = n_devs io ->
    let '(io2, closed) := register_node io1 fd node (alloc_ok p) in
    n_devs io2 = n_devs io + 1 /\ nth_error (nodes io2) k = Some node /\ closed = []).
  { intros io1 Hn1 Hd1. unfold register_node. rewrite Hn1, Hdn, Hfs. cbn.
    split; [lia|]. split; [|reflexivity].
    exact (nth_error_list_set_same _ _ _ _ (nth_error_list_set_same _ _ _ _ Hk)). }
  match goal with
  | |- context [register_node ?io1 fd node ?g] =>
      specialize (Hreg io1); destruct (register_node io1 fd node g) as [io2 cl]
  end.
  destruct Hreg as (H1 & H2 & H3).
  1-2: match goal with |- context [if ?b then _ else _] => destruct b end;
       reflexivity.
  auto.
Qed.

Lemma reconnect_after_disconnect_witness :
  let '(io2, closed) := got_device (fst (disconnect two_pads 0)) 9 (pad_probe 300) in
  n_devs io2 = 3 /\
  nth_error (nodes io2) 0 = Some (fst (classify_node 9 (pad_probe 300) ""%string 300 8)) /\
  closed = [].
Proof.
  pose proof (reconnect_after_disconnect two_pads 0 (nth 0 (nodes two_pads) zero_node)
                9 (pad_probe 300) ""%string 8
                ltac:(vm_compute; reflexivity) ltac:(vm_compute; reflexivity)
                ltac:(vm_compute; reflexivity)
                ltac:(intros i m Hi Hd; apply (slot_unique_300 i m Hi); rewrite Hd; vm_compute; reflexivity)
                ltac:(intros j m Hj; lia)
                eq_refl eq_refl ltac:(vm_compute; reflexivity) eq_refl) as H.
  replace (devnum (nth 0 (nodes two_pads) zero_node)) with 300 in H
    by (vm_compute; reflexivity).
  destruct (got_device (fst (disconnect two_pads 0)) 9 (pad_probe 300)) as [io2 cl].
  destruct H as (H1 & H2 & H3). split; [rewrite H1; reflexivity|].
  split; [exact H2 | rewrite H3; reflexivity].
Defined.

(** X10: [platform_event_keyrepeat] always returns the stored period; a
    non-negative period is stored (and read back by the next query), a
    negative one only queries. A negative delay is stored as an
    [unsigned] and the old delay returned; a non-negative delay is neither
    stored nor answered: [*delay] keeps the value passed in. The
    [KDKBDREP] request goes to every counted keyboard exactly when
    something was stored. *)
Theorem keyrepeat_behaviour (io : iodev_state) (rs : repeat_state) (p d : Z) :
  let '(rs', pout, dout, reqs) := platform_event_keyrepeat io rs p d in
  pout = to_i32 (period rs) /\
  period rs' = (if p <? 0 then period rs else to_u32 p) /\
  (0 <= d -> delay rs' = delay rs /\ dout = d) /\
  (d < 0 -> delay rs' = to_u32 d /\ dout = to_i32 (delay rs)) /\
  reqs = (if (0 <=? p) || (d <? 0)
          then map (fun h => (h, to_i32 (period rs'), to_i32 (delay rs')))
                 (keyboard_handles (nodes io) (Z.to_nat (n_devs io)))
          else []) /\
  (0 <= p < 2147483648 -> forall d',
     let '(_, pout2, _, _) := platform_event_keyrepeat io rs' (-1) d' in pout2 = p).
Proof.
  assert (Hrt : forall q, 0 <= q < 2147483648 -> to_i32 (to_u32 q) = q).
  { intros q Hq. unfold to_i32, to_u32. rewrite Z.mod_small by lia.
    replace (q <? 2147483648) with true by (symmetry; apply Z.ltb_lt; lia).
    reflexivity. }
  unfold platform_event_keyrepeat.
  destruct (p <? 0) eqn:Ep; [apply Z.ltb_lt in Ep | apply Z.ltb_ge in Ep];
  destruct (d <? 0) eqn:Ed; [apply Z.ltb_lt in Ed | apply Z.ltb_ge in Ed| apply Z.ltb_lt in Ed | apply Z.ltb_ge in Ed];
  cbn [period delay];
  (split; [reflexivity|]); (split; [reflexivity|]);
  (split; [intros; first [split; reflexivity | lia]|]);
  (split; [intros; first [split; reflexivity | lia]|]);
  (split; [first [replace (0 <=? p) with false by (symmetry; apply Z.leb_gt; lia)
                 | replace (0 <=? p) with true by (symmetry; apply Z.leb_le; lia)];
           reflexivity|]);
  intros Hp d'; try lia; cbn [Z.ltb Z.compare period delay];
  destruct (d' <? 0); apply Hrt; lia.
Qed.

Lemma keyrepeat_behaviour_witness :
  let '(rs', pout, dout, reqs) := platform_event_keyrepeat pad_io (mk_repeat 33 500) 25 10 in
  delay rs' = 500 /\ dout = 10.
Proof.
  pose proof (keyrepeat_behaviour pad_io (mk_repeat 33 500) 25 10) as H.
  destruct (platform_event_keyrepeat pad_io (mk_repeat 33 500) 25 10)
    as [[[rs' pout] dout] reqs].
  destruct H as (_ & _ & H3 & _). apply H3. lia.
Defined.

Lemma acap_eqb_in (c : acap) (l : list acap) :
  existsb (acap_eqb c) l = true <-> In c l.
Proof.
  rewrite existsb_exists. split.
  - intros (x & Hx & He). destruct c, x; try discriminate; exact Hx.
  - intros H. exists c. split; [exact H | destruct c; reflexivity].
Qed.

Lemma caps_loop_spec : forall ns m rv c,
  caps_loop ns m rv c = true <->
  rv c = true \/
  exists i x, (i < m)%nat /\ nth_error ns i = Some x /\ handle x <> 0 /\
              In c (type_caps (dtype x)).
Proof.
  induction ns as [|y ns IH]; intros [|m] rv c; cbn.
  - split; [auto | intros [H|(i & x & Hi & Hx & _)]; [exact H | lia]].
  - split; [auto | intros [H|(i & x & Hi & Hx & _)]; [exact H | destruct i; discriminate]].
  - split; [auto | intros [H|(i & x & Hi & Hx & _)]; [exact H | lia]].
  - rewrite IH. split.
    + intros [H|(i & x & Hi & Hx & Hh & Hc)].
      * destruct (handle y =? 0) eqn:E; cbn in H; [left; exact H|].
        apply orb_true_iff in H. destruct H as [H|H]; [left; exact H|].
        right. exists 0%nat, y. apply Z.eqb_neq in E.
        split; [lia|]. split; [reflexivity|]. split; [exact E|].
        apply acap_eqb_in; exact H.
      * right. exists (S i), x. repeat split; auto; lia.
    + intros [H|(i & x & Hi & Hx & Hh & Hc)].
      * left. destruct (handle y =? 0); cbn; [exact H | rewrite H; reflexivity].
      * destruct i as [|i].
        -- cbn in Hx; inversion Hx; subst. left.
           replace (handle x =? 0) with false by (symmetry; apply Z.eqb_neq; exact Hh).
           cbn. apply orb_true_iff; right; apply acap_eqb_in; exact Hc.
        -- right. exists i, x. repeat split; auto; lia.
Qed.

(** X11: a capability is reported exactly when some counted slot with a
    non-zero handle holds a device of a class that has it; disconnected
    slots (handle 0) contribute nothing. *)
Theorem capabilities_present (io : iodev_state) (c : acap) :
  platform_input_capabilities io c = true <->
  exists i x, (i < Z.to_nat (n_devs io))%nat /\ nth_error (nodes io) i = Some x /\
              handle x <> 0 /\ In c (type_caps (dtype x)).
Proof.
  unfold platform_input_capabilities. rewrite caps_loop_spec. split.
  - intros [H|H]; [discriminate | exact H].
  - intros H; right; exact H.
Qed.

Lemma capabilities_present_witness :
  exists i x, (i < Z.to_nat (n_devs pad_io))%nat /\ nth_error (nodes pad_io) i = Some x /\
              handle x <> 0 /\ In ACAP_GAMING (type_caps (dtype x)).
Proof.
  apply (proj1 (capabilities_present pad_io ACAP_GAMING)). vm_compute. reflexivity.
Defined.

End LifecycleProofs.

Module DecoderExtraProofs.
Import AxisFilter Registry Decoders.

Lemma count_bits_nonneg : forall bits n, 0 <= count_bits bits n.
Proof.
  intros bits n; induction n as [|n IH]; cbn; [lia|].
  destruct (Z.testbit bits (Z.of_nat n)); lia.
Qed.

Lemma set_abs_axes_length : forall bits ai n,
  Z.of_nat (length (set_abs_axes bits ai n)) = count_bits bits n.
Proof.
  intros bits ai n; induction n as [|n IH]; cbn; [reflexivity|].
  rewrite length_app, Nat2Z.inj_add, IH.
  destruct (Z.testbit bits (Z.of_nat n)); cbn; lia.
Qed.

(** The filters [set_abs_axes] builds for the codes below [k] come first
    in those it builds for the codes below [k + m]. *)
Lemma set_abs_axes_prefix : forall bits ai k m,
  exists rest, set_abs_axes bits ai (k + m) = set_abs_axes bits ai k ++ rest.
Proof.
  intros bits ai k m; induction m as [|m [rest IH]].
  - exists []. rewrite Nat.add_0_r, app_nil_r. reflexivity.
  - rewrite Nat.add_succ_r. cbn [set_abs_axes]. rewrite IH, <- app_assoc.
    eexists; reflexivity.
Qed.

(** X12: [map_axes] stores one filter per reported absolute axis, packed
    in code order (the filter of a reported code [c] sits at the index that
    counts the reported codes below [c]), and sets [axes] to their number;
    [defhandler_game] looks
    a record up by its raw code, so an [EV_ABS] record whose code is not
    below that number (and is not decoded as a hat) is dropped without an
    event or a state change, even when the device reports that axis. *)
Theorem map_axes_record_by_code (bits : Z) (ai : Z -> option (Z * Z))
  (h : evhandler) (dn c v : Z) :
  let g := map_axes (Some bits) ai in
  Z.of_nat (length (adata g)) = axes g /\
  axes g = count_bits bits (Z.to_nat ABS_MAX) /\
  (forall a, 0 <= a < ABS_MAX -> Z.testbit bits a = true ->
     nth_error (adata g) (Z.to_nat (count_bits bits (Z.to_nat a))) =
       Some (map_axes_axis (ai a))) /\
  (axes g <= c ->
   digital_hat h && (ABS_HAT0X <=? c) && (c <=? ABS_HAT3Y) = false ->
   game_record h dn g (mk_ie EV_ABS c v) = (g, [])).
Proof.
  cbv zeta.
  assert (Hl : Z.of_nat (length (adata (map_axes (Some bits) ai))) =
               axes (map_axes (Some bits) ai) /\
               axes (map_axes (Some bits) ai) = count_bits bits (Z.to_nat ABS_MAX)).
  { unfold map_axes. destruct (count_bits bits (Z.to_nat ABS_MAX) =? 0) eqn:E; cbn.
    - apply Z.eqb_eq in E. split; [reflexivity | symmetry; exact E].
    - split; [apply set_abs_axes_length | reflexivity]. }
  split; [apply Hl|]. split; [apply Hl|]. split.
  { intros a Ha Hb.
    destruct (set_abs_axes_prefix bits ai (S (Z.to_nat a))
                (Z.to_nat ABS_MAX - S (Z.to_nat a))) as [rest Hr].
    replace (S (Z.to_nat a) + (Z.to_nat ABS_MAX - S (Z.to_nat a)))%nat
      with (Z.to_nat ABS_MAX) in Hr by (unfold ABS_MAX in *; lia).
    assert (Hn : (count_bits bits (Z.to_nat ABS_MAX) =? 0) = false).
    { apply Z.eqb_neq. rewrite <- (set_abs_axes_length bits ai), Hr.
      cbn [set_abs_axes]. rewrite Z2Nat.id, Hb by lia.
      rewrite !length_app. cbn [length]. lia. }
    unfold map_axes. rewrite Hn. cbn [adata]. rewrite Hr.
    cbn [set_abs_axes]. rewrite Z2Nat.id, Hb by lia.
    rewrite <- app_assoc, nth_error_app2; rewrite <- (set_abs_axes_length bits ai), Nat2Z.id;
      [|lia].
    rewrite Nat.sub_diag. reflexivity. }
  intros Hc Hh. unfold game_record; cbn [ie_type ie_code ie_value].
  destruct (negb (axis_mask h =? 0) && (c <=? 64) && Z.testbit (axis_mask h) c);
    [reflexivity|].
  rewrite Hh. replace (c <? axes (map_axes (Some bits) ai)) with false
    by (symmetry; apply Z.ltb_ge; lia).
  reflexivity.
Qed.

(** A game handler with hat decoding and no masks, and a device reporting
    [ABS_X] and [ABS_Z]. *)
Definition hat_game_handler : evhandler :=
  mk_evhandler (Some Registry.defhandler_game) DEVNODE_GAME 0 0 true.

Lemma map_axes_record_by_code_witness :
  let g := map_axes (Some 5) (fun _ => None) in
  game_record hat_game_handler 300 g (mk_ie EV_ABS 2 700) = (g, []).
Proof.
  cbv zeta.
  apply (map_axes_record_by_code 5 (fun _ => None) hat_game_handler 300 2 700);
    vm_compute; first [reflexivity | discriminate].
Defined.

(** X13: a hat record changes only the two entries of its component.
    A centred value clears both and releases each one that was active,
    negative direction first. A negative value sets the negative entry to
    -1 and a positive value sets the positive entry to 1, leaving the
    opposite entry as it was; each emits one activation of its sub-id. *)
Theorem decode_hat_transitions (g : game_state) (dn ind v : Z) :
  let '(g', evs) := decode_hat g dn ind v in
  axes g' = axes g /\ adata g' = adata g /\
  (forall j, j <> ind * 2 -> j <> ind * 2 + 1 -> hats g' j = hats g j) /\
  (v = 0 ->
   hats g' (ind * 2) = 0 /\ hats g' (ind * 2 + 1) = 0 /\
   evs = (if hats g (ind * 2) =? 0 then [] else [EvDigital dn (64 + ind * 2) false]) ++
         (if hats g (ind * 2 + 1) =? 0 then []
          else [EvDigital dn (64 + ind * 2 + 1) false])) /\
  (v < 0 ->
   hats g' (ind * 2) = -1 /\ hats g' (ind * 2 + 1) = hats g (ind * 2 + 1) /\
   evs = [EvDigital dn (64 + ind * 2) true]) /\
  (0 < v ->
   hats g' (ind * 2 + 1) = 1 /\ hats g' (ind * 2) = hats g (ind * 2) /\
   evs = [EvDigital dn (64 + (ind * 2 + 1)) true]).
Proof.
  unfold decode_hat.
  destruct (v =? 0) eqn:Ev; [apply Z.eqb_eq in Ev; subst v | apply Z.eqb_neq in Ev].
  - destruct (hats g (ind * 2) =? 0) eqn:E1;
    destruct (hats g (ind * 2 + 1) =? 0) eqn:E2; cbn -[Z.mul Z.add upd];
    repeat rewrite (DecoderProofs.upd_other _ (ind * 2) 0 (ind * 2 + 1)) by lia;
    rewrite ?E1, ?E2; cbn -[Z.mul Z.add upd];
    (split; [reflexivity|]); (split; [reflexivity|]);
    (split; [intros j Hj1 Hj2; rewrite ?DecoderProofs.upd_other by lia; reflexivity|]);
    (split; [intros _|]);
    try (split; [intros; lia|]); try (intros; lia);
    repeat split; rewrite ?DecoderProofs.upd_same, ?DecoderProofs.upd_other by lia;
    rewrite ?DecoderProofs.upd_same; try reflexivity;
    apply Z.eqb_eq; assumption.
  - destruct (v <? 0) eqn:Vn; [apply Z.ltb_lt in Vn | apply Z.ltb_ge in Vn];
    cbn -[Z.mul Z.add upd];
    (split; [reflexivity|]); (split; [reflexivity|]);
    (split; [intros j Hj1 Hj2; rewrite DecoderProofs.upd_other by lia; reflexivity|]);
    (split; [intros; lia|]).
    + split; [|intros; lia]. intros _.
      rewrite DecoderProofs.upd_same, DecoderProofs.upd_other by lia.
      auto.
    + split; [intros; lia|]. intros _.
      rewrite DecoderProofs.upd_same, DecoderProofs.upd_other by lia.
      auto.
Qed.

Lemma decode_hat_transitions_witness :
  let '(g', evs) := decode_hat (mk_game 0 (fun j => if j =? 3 then 1 else 0) []) 7 1 (-1) in
  hats g' 2 = -1 /\ hats g' 3 = 1 /\ evs = [EvDigital 7 66 true].
Proof.
  pose proof (decode_hat_transitions (mk_game 0 (fun j => if j =? 3 then 1 else 0) []) 7 1 (-1))
    as H.
  destruct (decode_hat _ 7 1 (-1)) as [g' evs].
  destruct H as (_ & _ & _ & _ & H & _). destruct (H ltac:(lia)) as (H1 & H2 & H3).
  split; [exact H1|]. split; [exact H2 | exact H3].
Defined.

(** X15: a key record on a mouse emits one digital event with sub-id
    [code - BTN_MOUSE + 1] (1 for [BTN_LEFT]) for the codes from
    [BTN_MOUSE] up to, not including, [BTN_JOYSTICK], and nothing for any
    other code; it never changes the cursor. *)
Theorem mouse_button_records (dn : Z) (c : cursor_state) (code v : Z) :
  mouse_record dn c (mk_ie EV_KEY code v) =
  (c, if (BTN_MOUSE <=? code) && (code <? BTN_JOYSTICK)
      then [EvDigital dn (code - BTN_MOUSE + 1) (negb (v =? 0))] else []).
Proof.
  unfold mouse_record, code_to_mouse; cbn [ie_type ie_code ie_value].
  replace (EV_KEY =? EV_KEY) with true by reflexivity.
  unfold BTN_MOUSE, BTN_JOYSTICK.
  destruct (code <? 272) eqn:E1; [apply Z.ltb_lt in E1 | apply Z.ltb_ge in E1];
  destruct (288 <=? code) eqn:E2; [apply Z.leb_le in E2 | apply Z.leb_gt in E2
                                  | apply Z.leb_le in E2 | apply Z.leb_gt in E2];
  cbn [orb]; try reflexivity.
  - replace (272 <=? code) with false by (symmetry; apply Z.leb_gt; lia). reflexivity.
  - replace (272 <=? code) with false by (symmetry; apply Z.leb_gt; lia). reflexivity.
  - replace (272 <=? code) with true by (symmetry; apply Z.leb_le; lia).
    replace (code <? 288) with false by (symmetry; apply Z.ltb_ge; lia). reflexivity.
  - replace (272 <=? code) with true by (symmetry; apply Z.leb_le; lia).
    replace (code <? 288) with true by (symmetry; apply Z.ltb_lt; lia).
    replace (code - 272 + 1 <? 0) with false by (symmetry; apply Z.ltb_ge; lia).
    reflexivity.
Qed.

End DecoderExtraProofs.

Module RegistryExtraProofs.
Import AxisFilter Registry Scenarios.

(** The number of allocated slots (counted or not) whose identity is [d]. *)
Definition slots_with (ns : list devnode) (d : Z) : nat :=
  length (filter (fun x => devnum x =? d) ns).

Lemma find_slot_cases : forall ns i0 hole dn,
  match find_slot ns i0 hole dn with
  | Reconnect i =>
      (i0 <= i)%nat /\ exists x, nth_error ns (i - i0) = Some x /\ devnum x = dn
  | Fresh r =>
      (r = hole /\ forall j x, nth_error ns j = Some x -> devnum x <> dn) \/
      (hole = None /\ exists h x, r = Some h /\ (i0 <= h)%nat /\
         nth_error ns (h - i0) = Some x /\
         forall j y, j <> (h - i0)%nat -> nth_error ns j = Some y -> devnum y <> dn)
  end.
Proof.
  induction ns as [|x ns IH]; intros i0 hole dn.
  - left. split; [reflexivity|]. intros [|j] y H; discriminate.
  - cbn [find_slot].
    assert (Hstep : forall hole',
      (hole' = hole \/ hole = None) ->
      devnum x <> dn ->
      match find_slot ns (S i0) hole' dn with
      | Reconnect i =>
          (i0 <= i)%nat /\ exists y, nth_error (x :: ns) (i - i0) = Some y /\ devnum y = dn
      | Fresh r =>
          (r = hole' /\ forall j y, nth_error (x :: ns) j = Some y -> devnum y <> dn) \/
          (hole' = None /\ exists h y, r = Some h /\ (i0 <= h)%nat /\
             nth_error (x :: ns) (h - i0) = Some y /\
             forall j z, j <> (h - i0)%nat -> nth_error (x :: ns) j = Some z -> devnum z <> dn)
      end).
    { intros hole' _ Hx. specialize (IH (S i0) hole' dn).
      destruct (find_slot ns (S i0) hole' dn) as [i|r].
      - destruct IH as (Hi & y & Hy & Hd). split; [lia|].
        exists y. replace (i - i0)%nat with (S (i - S i0)) by lia. auto.
      - destruct IH as [(Hr & Hn) | (Hh & h & y & Hr & Hi & Hy & Hn)].
        + left. split; [exact Hr|]. intros [|j] z Hz; [cbn in Hz; congruence|].
          exact (Hn j z Hz).
        + right. split; [exact Hh|]. exists h, y.
          split; [exact Hr|]. split; [lia|].
          replace (h - i0)%nat with (S (h - S i0)) by lia.
          split; [exact Hy|].
          intros [|j] z Hj Hz; [cbn in Hz; congruence|].
          apply (Hn j z); [lia | exact Hz]. }
    destruct hole as [h0|]; cbn [andb].
    + destruct (devnum x =? dn) eqn:E.
      * apply Z.eqb_eq in E. split; [lia|]. exists x.
        rewrite Nat.sub_diag. auto.
      * apply Z.eqb_neq in E. pose proof (Hstep (Some h0) (or_introl eq_refl) E) as H.
        destruct (find_slot ns (S i0) (Some h0) dn); [exact H|].
        destruct H as [H | (H & _)]; [left; exact H | discriminate].
    + destruct (handle x <=? 0) eqn:Hx.
      * specialize (IH (S i0) (Some i0) dn).
        destruct (find_slot ns (S i0) (Some i0) dn) as [i|r].
        -- destruct IH as (Hi & y & Hy & Hd). split; [lia|].
           exists y. replace (i - i0)%nat with (S (i - S i0)) by lia. auto.
        -- destruct IH as [(Hr & Hn) | (H & _)]; [|discriminate].
           right. split; [reflexivity|]. exists i0, x.
           split; [exact Hr|]. split; [lia|]. rewrite Nat.sub_diag.
           split; [reflexivity|].
           intros [|j] z Hj Hz; [lia|]. exact (Hn j z Hz).
      * destruct (devnum x =? dn) eqn:E.
        -- apply Z.eqb_eq in E. split; [lia|]. exists x.
           rewrite Nat.sub_diag. auto.
        -- apply Z.eqb_neq in E. exact (Hstep None (or_introl eq_refl) E).
Qed.

Lemma slots_with_list_set : forall ns k x y d,
  nth_error ns k = Some y ->
  (slots_with (list_set ns k x) d + (if (devnum y =? d)%Z then 1 else 0) =
   slots_with ns d + (if (devnum x =? d)%Z then 1 else 0))%nat.
Proof.
  unfold slots_with.
  induction ns as [|a ns IH]; intros [|k] x y d Hk; try discriminate; cbn in Hk |- *.
  - inversion Hk; subst.
    destruct (devnum x =? d), (devnum y =? d); cbn; lia.
  - specialize (IH k x y d Hk). destruct (devnum a =? d); cbn; lia.
Qed.

Lemma slots_with_app (a b : list devnode) (d : Z) :
  slots_with (a ++ b) d = (slots_with a d + slots_with b d)%nat.
Proof. unfold slots_with. rewrite filter_app, length_app. reflexivity. Qed.

Lemma slots_with_repeat_zero (n : nat) (d : Z) :
  d <> 0 -> slots_with (repeat zero_node n) d = 0%nat.
Proof.
  intros Hd. unfold slots_with. induction n as [|n IH]; [reflexivity|].
  cbn [repeat filter]. replace (devnum zero_node =? d) with false
    by (symmetry; apply Z.eqb_neq; cbn; auto). exact IH.
Qed.

Lemma slots_with_none : forall ns d,
  (forall j x, nth_error ns j = Some x -> devnum x <> d) -> slots_with ns d = 0%nat.
Proof.
  unfold slots_with. induction ns as [|a ns IH]; intros d H; cbn; [reflexivity|].
  replace (devnum a =? d) with false
    by (symmetry; apply Z.eqb_neq; exact (H 0%nat a eq_refl)).
  apply IH. intros j x Hj; exact (H (S j) x Hj).
Qed.

Lemma slots_with_pos : forall ns j x d,
  nth_error ns j = Some x -> devnum x = d -> (1 <= slots_with ns d)%nat.
Proof.
  unfold slots_with.
  induction ns as [|a ns IH]; intros [|j] x d Hj Hx; try discriminate; cbn in Hj |- *.
  - inversion Hj; subst. rewrite Z.eqb_refl. cbn. lia.
  - specialize (IH j x d Hj Hx). destruct (devnum a =? d); cbn; lia.
Qed.

Lemma slots_with_cons (a : devnode) (ns : list devnode) (d : Z) :
  slots_with (a :: ns) d = ((if (devnum a =? d)%Z then 1 else 0) + slots_with ns d)%nat.
Proof. unfold slots_with; cbn. destruct (devnum a =? d); reflexivity. Qed.

Lemma slots_with_only : forall ns k x d,
  nth_error ns k = Some x ->
  (forall j y, j <> k -> nth_error ns j = Some y -> devnum y <> d) ->
  slots_with ns d = if (devnum x =? d)%Z then 1%nat else 0%nat.
Proof.
  induction ns as [|a ns IH]; intros [|k] x d Hk Hn; try discriminate; cbn in Hk;
    rewrite slots_with_cons.
  - inversion Hk; subst.
    rewrite (slots_with_none ns d) by (intros j y Hy; exact (Hn (S j) y ltac:(lia) Hy)).
    destruct (devnum x =? d); reflexivity.
  - replace (devnum a =? d) with false
      by (symmetry; apply Z.eqb_neq; exact (Hn 0%nat a ltac:(lia) eq_refl)).
    apply (IH k x d Hk). intros j y Hj Hy; exact (Hn (S j) y ltac:(lia) Hy).
Qed.

Lemma nth_error_app_end {A : Type} (l r : list A) (z : A) :
  nth_error (l ++ z :: r) (length l) = Some z.
Proof. rewrite nth_error_app2, Nat.sub_diag by lia. reflexivity. Qed.

(** [register_node] never adds a slot carrying a non-zero identity other
    than the node's own, and, when the tables can grow, leaves exactly one
    slot carrying the node's identity when there was at most one before. *)
Lemma register_node_slots (io : iodev_state) (fd : Z) (node : devnode)
  (grow_ok : bool) :
  let ns' := nodes (fst (register_node io fd node grow_ok)) in
  (forall D, D <> 0 -> D <> devnum node ->
     (slots_with ns' D <= slots_with (nodes io) D)%nat) /\
  (devnum node <> 0 -> (slots_with (nodes io) (devnum node) <= 1)%nat ->
     slots_with ns' (devnum node) = 1%nat \/ (grow_ok = false /\ ns' = nodes io)).
Proof.
  cbv zeta. unfold register_node.
  pose proof (find_slot_cases (nodes io) 0 None (devnum node)) as Hc.
  destruct (find_slot (nodes io) 0 None (devnum node)) as [i|r]; cbn [fst nodes].
  - destruct Hc as (_ & x & Hx & Hd). rewrite Nat.sub_0_r in Hx.
    rewrite (RegistryProofs.nth_error_nth_eq _ _ _ _ Hx).
    assert (Heq : forall D, slots_with (list_set (nodes io) i (set_handle x fd)) D =
                            slots_with (nodes io) D).
    { intros D. pose proof (slots_with_list_set (nodes io) i (set_handle x fd) x D Hx)
        as H. cbn [devnum set_handle] in H. lia. }
    split; [intros D _ _; rewrite Heq; lia|].
    intros _ H1. left. rewrite Heq.
    pose proof (slots_with_pos (nodes io) i x (devnum node) Hx Hd). lia.
  - destruct Hc as [(Hr & Hn) | (_ & h & x & Hr & _ & Hx & Hn)]; subst r; cbn [fst nodes].
    + destruct grow_ok; cbn [fst nodes];
        [|split; [intros; lia | intros; right; auto]].
      assert (Hz : nth_error (nodes io ++ repeat zero_node 8) (length (nodes io)) =
                   Some zero_node) by (apply nth_error_app_end).
      assert (Hs : forall D, D <> 0 ->
        slots_with (list_set (nodes io ++ repeat zero_node 8) (length (nodes io)) node) D =
        (slots_with (nodes io) D + (if (devnum node =? D)%Z then 1 else 0))%nat).
      { intros D HD.
        pose proof (slots_with_list_set _ _ node zero_node D Hz) as H.
        rewrite slots_with_app, slots_with_repeat_zero in H by exact HD.
        replace (devnum zero_node =? D) with false in H
          by (symmetry; apply Z.eqb_neq; cbn; auto).
        lia. }
      split.
      * intros D HD HD'. rewrite (Hs D HD).
        replace (devnum node =? D) with false by (symmetry; apply Z.eqb_neq; auto). lia.
      * intros HD _. left. rewrite (Hs _ HD), Z.eqb_refl, (slots_with_none _ _ Hn).
        reflexivity.
    + rewrite Nat.sub_0_r in Hx, Hn.
      pose proof (slots_with_only _ _ _ (devnum node) Hx Hn) as Ho.
      split.
      * intros D HD HD'.
        pose proof (slots_with_list_set (nodes io) h node x D Hx) as H.
        replace (devnum node =? D) with false in H
          by (symmetry; apply Z.eqb_neq; auto).
        destruct (devnum x =? D); lia.
      * pose proof (slots_with_list_set (nodes io) h node x (devnum node) Hx) as H.
        rewrite Z.eqb_refl, Ho in H.
        intros _ _. left. destruct (devnum x =? devnum node); lia.
Qed.

(** X16: [got_device] keeps the registry free of duplicate identities:
    when no non-zero identity is carried by two allocated slots, none is
    after the call, whatever the probes and the allocator answer; and a
    device that gets through every probe with a non-zero identity, below
    the device limit and with the growth of the tables granted when one is
    needed, is then carried by exactly one slot. *)
Theorem got_device_identity_unique (io : iodev_state) (fd : Z) (p : probe) :
  (forall D, D <> 0 -> (slots_with (nodes io) D <= 1)%nat) ->
  (forall D, D <> 0 -> (slots_with (nodes (fst (got_device io fd p))) D <= 1)%nat) /\
  (forall lbl dn ev, fstat_ok p = true -> is_chr_or_blk p = true ->
     ident p = Some (lbl, dn) -> evbits p = Some ev -> dn <> 0 ->
     n_devs io < MAX_DEVICES -> alloc_ok p = true ->
     slots_with (nodes (fst (got_device io fd p))) dn = 1%nat).
Proof.
  intros Hu.
  assert (Hreg : forall io1 fd1 node g, nodes io1 = nodes io ->
    (forall D, D <> 0 ->
       (slots_with (nodes (fst (register_node io1 fd1 node g))) D <= 1)%nat) /\
    (devnum node <> 0 -> g = true ->
     slots_with (nodes (fst (register_node io1 fd1 node g))) (devnum node) = 1%nat)).
  { intros io1 fd1 node g Hn.
    destruct (register_node_slots io1 fd1 node g) as (H1 & H2).
    rewrite Hn in H1, H2. split.
    - intros D HD. destruct (Z.eq_dec D (devnum node)) as [->|HD'].
      + destruct (H2 HD (Hu _ HD)) as [-> | (_ & ->)]; [lia | exact (Hu _ HD)].
      + pose proof (H1 D HD HD'). pose proof (Hu D HD). lia.
    - intros HD Hg. destruct (H2 HD (Hu _ HD)) as [H | (H & _)]; [exact H|].
      congruence. }
  unfold got_device.
  destruct (fstat_ok p) eqn:F1; cbn [negb];
    [|split; [exact Hu | intros; discriminate]].
  destruct (is_chr_or_blk p) eqn:F2; cbn [negb];
    [|split; [exact Hu | intros; discriminate]].
  destruct (ident p) as [[lbl dn]|] eqn:Fi;
    [|split; [exact Hu | intros; discriminate]].
  destruct (MAX_DEVICES <=? n_devs io) eqn:Fm;
    [split; [exact Hu | intros; apply Z.leb_le in Fm; lia]|].
  destruct (evbits p) as [ev|] eqn:Fe;
    [|split; [exact Hu | intros; discriminate]].
  pose proof (Hcl := LifecycleProofs.classify_node_devnum fd p lbl dn ev).
  destruct (classify_node fd p lbl dn ev) as [node is_mouse].
  cbn [fst] in Hcl.
  set (io1 := if is_mouse && (mouseid io =? 0)
              then mk_iodev (n_devs io) dn (nodes io) (pollset io) else io).
  assert (Hn1 : nodes io1 = nodes io) by (subst io1; destruct (is_mouse && _); reflexivity).
  destruct (Hreg io1 fd node (alloc_ok p) Hn1) as (R1 & R2).
  destruct (register_node io1 fd node (alloc_ok p)) as [io2 closed].
  cbn [fst] in R1, R2 |- *.
  split; [exact R1|].
  intros lbl' dn' ev' _ _ Hi He Hd _ Ha. inversion Hi; subst.
  apply R2; [congruence | exact Ha].
Qed.

Lemma got_device_identity_unique_witness :
  slots_with (nodes (fst (got_device empty_iodev 3 (pad_probe 300)))) 300 = 1%nat.
Proof.
  destruct (got_device_identity_unique empty_iodev 3 (pad_probe 300)) as [_ H].
  - intros D _. cbn. lia.
  - apply (H String.EmptyString 300 8); first [reflexivity | lia | vm_compute; reflexivity].
Defined.

End RegistryExtraProofs.

Module NotifyProofs.
Import Notify.

(** A record as the kernel writes it: the four [uint32_t] fields and
    [len] bytes of name. *)
Record ino_event := mk_ino_event {
  ev_wd : Z;
  ev_mask : Z;
  ev_cookie : Z;
  ev_name : list Z
}.

Definition u32_bytes (x : Z) : list Z :=
  [x mod 256; (x / 256) mod 256; (x / 65536) mod 256; (x / 16777216) mod 256].

Definition encode_event (e : ino_event) : list Z :=
  u32_bytes (ev_wd e) ++ u32_bytes (ev_mask e) ++ u32_bytes (ev_cookie e) ++
  u32_bytes (Z.of_nat (length (ev_name e))) ++ ev_name e.

Definition encode_events (evs : list ino_event) : list Z :=
  flat_map encode_event evs.

(** A file (not directory) creation record with a name. *)
Definition file_created (e : ino_event) : Prop :=
  0 <= ev_mask e < 4294967296 /\ Z.land (ev_mask e) IN_CREATE <> 0 /\
  Z.land (ev_mask e) IN_ISDIR = 0 /\ ev_name e <> [] /\
  Z.of_nat (length (ev_name e)) < 4294967296.

(** The bytes a [discovered] call reads as the name. *)
Definition name_at (buf : list Z) (r : Z * Z) : list Z :=
  firstn (Z.to_nat (snd r)) (skipn (Z.to_nat (fst r)) buf).

Lemma le32_u32_bytes (p q : list Z) (x : Z) :
  0 <= x < 4294967296 -> le32 (p ++ u32_bytes x ++ q) (length p) = x.
Proof.
  intros Hx. unfold le32, u32_bytes.
  assert (Hn : forall k (l : list Z), nth (length p + k) (p ++ l) 0 = nth k l 0).
  { intros k l. rewrite app_nth2 by lia. f_equal; lia. }
  rewrite <- (Nat.add_0_r (length p)) at 1. rewrite !Hn.
  cbn [nth app].
  assert (E1 : x / 65536 = x / 256 / 256) by (rewrite Z.div_div by lia; reflexivity).
  assert (E2 : x / 16777216 = x / 256 / 256 / 256)
    by (rewrite !Z.div_div by lia; reflexivity).
  assert (E3 : 0 <= x / 256 / 256 / 256 < 256).
  { rewrite <- E2. split; [apply Z.div_pos; lia | apply Z.div_lt_upper_bound; lia]. }
  rewrite E1, E2, (Z.mod_small (x / 256 / 256 / 256)) by exact E3.
  pose proof (Z.div_mod x 256 ltac:(lia)).
  pose proof (Z.div_mod (x / 256) 256 ltac:(lia)).
  pose proof (Z.div_mod (x / 256 / 256) 256 ltac:(lia)).
  lia.
Qed.

Lemma length_u32_bytes (x : Z) : length (u32_bytes x) = 4%nat.
Proof. reflexivity. Qed.

Lemma length_encode_event (e : ino_event) :
  length (encode_event e) = (16 + length (ev_name e))%nat.
Proof. unfold encode_event. rewrite !length_app, !length_u32_bytes. lia. Qed.

Lemma length_encode_events (evs : list ino_event) :
  Forall file_created evs -> (17 * length evs <= length (encode_events evs))%nat.
Proof.
  induction 1 as [|e evs He _ IH]; [cbn; lia|].
  unfold encode_events; cbn [flat_map length]; fold (encode_events evs).
  rewrite length_app, length_encode_event.
  destruct He as (_ & _ & _ & Hn & _). destruct (ev_name e); [congruence|].
  cbn. lia.
Qed.

Lemma wrapu64_small (z : Z) : 0 <= z < 18446744073709551616 -> Identity.wrapu64 z = z.
Proof. intros H; unfold Identity.wrapu64; apply Z.mod_small; exact H. Qed.

Lemma notify_scan_encoded : forall evs p rest fuel,
  Forall file_created evs ->
  let buf := p ++ encode_events evs ++ rest in
  length buf = 1024%nat -> (length evs < fuel)%nat ->
  exists r, notify_scan fuel buf (Z.of_nat (length (p ++ encode_events evs)))
              (Z.of_nat (length p)) = Some r /\
            map (name_at buf) r = map ev_name evs.
Proof.
  induction evs as [|e evs IH]; intros p rest [|fuel] Hf buf Hl Hfuel; cbn zeta in *;
    try lia.
  - exists []. cbn [notify_scan]. rewrite app_nil_r, Z.sub_diag.
    split; reflexivity.
  - inversion Hf as [|e' evs' He Hf']; subst e' evs'.
    destruct He as (Hm & Hc & Hd & Hn & Hlen).
    set (ne := length (ev_name e)) in *.
    assert (Hlb : length buf = (length p + (16 + ne) + length (encode_events evs)
                                + length rest)%nat).
    { subst buf. cbn [encode_events flat_map]. fold (encode_events evs).
      rewrite !length_app, length_encode_event. lia. }
    assert (Hne : (1 <= ne)%nat) by (subst ne; destruct (ev_name e); cbn; [congruence | lia]).
    cbn [notify_scan].
    replace (Identity.wrapu64 _) with (Z.of_nat (16 + ne + length (encode_events evs)))
      by (rewrite wrapu64_small; cbn [encode_events flat_map]; fold (encode_events evs);
          rewrite !length_app, length_encode_event; lia).
    replace (INOTIFY_EVENT_SZ <? _) with true by (symmetry; apply Z.ltb_lt; unfold INOTIFY_EVENT_SZ; lia).
    replace (INBUF_SZ <? _) with false by (symmetry; apply Z.ltb_ge; unfold INBUF_SZ, INOTIFY_EVENT_SZ; lia).
    rewrite Nat2Z.id.
    assert (Hbuf : buf = (p ++ u32_bytes (ev_wd e)) ++ u32_bytes (ev_mask e) ++
                         (u32_bytes (ev_cookie e) ++ u32_bytes (Z.of_nat ne) ++ ev_name e ++
                          encode_events evs ++ rest)).
    { subst buf. cbn [encode_events flat_map]. fold (encode_events evs).
      unfold encode_event. rewrite <- !app_assoc. reflexivity. }
    assert (Hbuf2 : buf = (p ++ u32_bytes (ev_wd e) ++ u32_bytes (ev_mask e) ++
                           u32_bytes (ev_cookie e)) ++ u32_bytes (Z.of_nat ne) ++
                          (ev_name e ++ encode_events evs ++ rest)).
    { rewrite Hbuf. rewrite <- !app_assoc. reflexivity. }
    replace (le32 buf (length p + 4)) with (ev_mask e).
    2:{ rewrite Hbuf. replace (length p + 4)%nat with (length (p ++ u32_bytes (ev_wd e)))
          by (rewrite length_app; reflexivity).
        symmetry; apply le32_u32_bytes; exact Hm. }
    replace (le32 buf (length p + 12)) with (Z.of_nat ne).
    2:{ rewrite Hbuf2.
        replace (length p + 12)%nat with
          (length (p ++ u32_bytes (ev_wd e) ++ u32_bytes (ev_mask e) ++ u32_bytes (ev_cookie e)))
          by (rewrite !length_app; reflexivity).
        symmetry; apply le32_u32_bytes; lia. }
    replace (negb (Z.land (ev_mask e) IN_CREATE =? 0) && (Z.land (ev_mask e) IN_ISDIR =? 0))
      with true by (rewrite (proj2 (Z.eqb_neq _ _) Hc), Hd; reflexivity).
    assert (Hp' : p ++ encode_events (e :: evs) = (p ++ encode_event e) ++ encode_events evs).
    { cbn [encode_events flat_map]. fold (encode_events evs). apply app_assoc. }
    destruct (IH (p ++ encode_event e) rest fuel Hf') as (r & Hr & Hmap).
    { rewrite !length_app, length_encode_event. lia. }
    { cbn in Hfuel. lia. }
    replace (Z.of_nat (length p) + INOTIFY_EVENT_SZ + Z.of_nat ne)
      with (Z.of_nat (length (p ++ encode_event e)))
      by (rewrite length_app, length_encode_event; unfold INOTIFY_EVENT_SZ; lia).
    assert (Hb : p ++ encode_event e ++ encode_events evs ++ rest = buf).
    { subst buf. unfold encode_events at 2. cbn [flat_map]. fold (encode_events evs).
      rewrite <- app_assoc. reflexivity. }
    rewrite <- app_assoc, Hb in Hr, Hmap. rewrite Hp', Hr. cbn [option_map]. eexists; split; [reflexivity|].
    cbn [map]. rewrite Hmap. f_equal.
    unfold name_at; cbn [fst snd].
    rewrite Nat2Z.id.
    replace (Z.to_nat (Z.of_nat (length p) + INOTIFY_EVENT_SZ))
      with (length (p ++ u32_bytes (ev_wd e) ++ u32_bytes (ev_mask e) ++
                    u32_bytes (ev_cookie e) ++ u32_bytes (Z.of_nat ne)))
      by (rewrite !length_app, !length_u32_bytes; unfold INOTIFY_EVENT_SZ; lia).
    assert (Hbuf3 : buf = (p ++ u32_bytes (ev_wd e) ++ u32_bytes (ev_mask e) ++
                           u32_bytes (ev_cookie e) ++ u32_bytes (Z.of_nat ne)) ++
                          ev_name e ++ (encode_events evs ++ rest)).
    { rewrite Hbuf. rewrite <- !app_assoc. reflexivity. }
    rewrite Hbuf3, skipn_app, skipn_all, Nat.sub_diag, skipn_O, app_nil_l.
    rewrite ?Nat2Z.id. subst ne.
    rewrite firstn_app, firstn_all, Nat.sub_diag, firstn_O, app_nil_r.
    reflexivity.
Qed.

(** X17: a [read] that returns whole file-creation records back to back
    makes [platform_event_process] call [discovered] once per record, in
    order, each time with exactly that record's name bytes. *)
Theorem notify_events_round_trip (evs : list ino_event) (rest : list Z) :
  Forall file_created evs ->
  length (encode_events evs ++ rest) = 1024%nat ->
  exists r, notify_events (encode_events evs ++ rest)
              (Z.of_nat (length (encode_events evs))) = Some r /\
            map (name_at (encode_events evs ++ rest)) r = map ev_name evs.
Proof.
  intros Hf Hl. unfold notify_events.
  replace (Z.of_nat (length (encode_events evs)) =? -1) with false
    by (symmetry; apply Z.eqb_neq; lia).
  pose proof (length_encode_events evs Hf) as H17.
  rewrite length_app in Hl.
  apply (notify_scan_encoded evs [] rest 65 Hf); [cbn; rewrite length_app; lia | lia].
Qed.

Definition sample_created : list ino_event :=
  [mk_ino_event 1 IN_CREATE 0 [101; 118; 101; 110; 116; 51; 0; 0];
   mk_ino_event 1 IN_CREATE 0 [106; 115; 48; 0]].

Lemma notify_events_round_trip_witness :
  exists r, notify_events (encode_events sample_created ++ repeat 0 980)
              (Z.of_nat (length (encode_events sample_created))) = Some r /\
            map (name_at (encode_events sample_created ++ repeat 0 980)) r =
            map ev_name sample_created.
Proof.
  apply notify_events_round_trip; [|vm_compute; reflexivity].
  repeat constructor; unfold file_created; cbn;
    repeat split; first [lia | discriminate | vm_compute; discriminate].
Defined.

(** The test of the loop on a record's mask. *)
Definition reported_mask (mask : Z) : bool :=
  negb (Z.land mask IN_CREATE =? 0) && (Z.land mask IN_ISDIR =? 0).

Definition reported (e : ino_event) : bool := reported_mask (ev_mask e).

(** Sixteen name bytes that, read as a header, are not a file creation. *)
Definition quiet_block (b : list Z) : Prop :=
  length b = 16%nat /\ reported_mask (le32 b 4) = false.

(** A directory creation record, its name padded to 16-byte blocks. *)
Definition dir_created (e : ino_event) : Prop :=
  0 <= ev_mask e < 4294967296 /\ Z.land (ev_mask e) IN_ISDIR <> 0 /\
  Z.of_nat (length (ev_name e)) < 4294967296 /\
  exists bs, Forall quiet_block bs /\ ev_name e = concat bs.

Lemma le32_app (p b q : list Z) (o : nat) :
  (o + 3 < length b)%nat -> le32 (p ++ b ++ q) (length p + o) = le32 b o.
Proof.
  intros Ho. unfold le32.
  assert (Hn : forall k, (k < length b)%nat ->
            nth (length p + k) (p ++ b ++ q) 0 = nth k b 0).
  { intros k Hk. rewrite app_nth2 by lia.
    replace (length p + k - length p)%nat with k by lia.
    apply app_nth1; exact Hk. }
  rewrite <- !Nat.add_assoc, !Hn by lia. reflexivity.
Qed.

Lemma scan_header_step (p tl : list Z) (e : ino_event) (nr : Z) (f : nat) :
  0 <= ev_mask e < 4294967296 ->
  Z.of_nat (length (ev_name e)) < 4294967296 ->
  Z.of_nat (length p) + INOTIFY_EVENT_SZ < nr <= INBUF_SZ ->
  (length (p ++ encode_event e ++ tl) <= 1024)%nat ->
  notify_scan (S f) (p ++ encode_event e ++ tl) nr (Z.of_nat (length p)) =
  if reported e
  then option_map (cons (Z.of_nat (length p) + INOTIFY_EVENT_SZ,
                         Z.of_nat (length (ev_name e))))
         (notify_scan f (p ++ encode_event e ++ tl) nr
            (Z.of_nat (length (p ++ encode_event e))))
  else notify_scan f (p ++ encode_event e ++ tl) nr
         (Z.of_nat (length p) + INOTIFY_EVENT_SZ).
Proof.
  intros Hm Hl Hnr Hb. cbn [notify_scan].
  rewrite length_app, length_app, length_encode_event in Hb.
  rewrite wrapu64_small by (unfold INOTIFY_EVENT_SZ, INBUF_SZ in *; lia).
  replace (INOTIFY_EVENT_SZ <? _) with true
    by (symmetry; apply Z.ltb_lt; lia).
  replace (INBUF_SZ <? _) with false
    by (symmetry; apply Z.ltb_ge; unfold INBUF_SZ, INOTIFY_EVENT_SZ; lia).
  rewrite Nat2Z.id.
  assert (Hbuf : p ++ encode_event e ++ tl =
                 (p ++ u32_bytes (ev_wd e)) ++ u32_bytes (ev_mask e) ++
                 (u32_bytes (ev_cookie e) ++ u32_bytes (Z.of_nat (length (ev_name e))) ++
                  ev_name e ++ tl)).
  { unfold encode_event. rewrite <- !app_assoc. reflexivity. }
  assert (Hbuf2 : p ++ encode_event e ++ tl =
                  (p ++ u32_bytes (ev_wd e) ++ u32_bytes (ev_mask e) ++
                   u32_bytes (ev_cookie e)) ++ u32_bytes (Z.of_nat (length (ev_name e))) ++
                  (ev_name e ++ tl)).
  { unfold encode_event. rewrite <- !app_assoc. reflexivity. }
  replace (le32 (p ++ encode_event e ++ tl) (length p + 4)) with (ev_mask e).
  2:{ rewrite Hbuf. replace (length p + 4)%nat with (length (p ++ u32_bytes (ev_wd e)))
        by (rewrite length_app; reflexivity).
      symmetry; apply le32_u32_bytes; exact Hm. }
  replace (le32 (p ++ encode_event e ++ tl) (length p + 12))
    with (Z.of_nat (length (ev_name e))).
  2:{ rewrite Hbuf2.
      replace (length p + 12)%nat with
        (length (p ++ u32_bytes (ev_wd e) ++ u32_bytes (ev_mask e) ++ u32_bytes (ev_cookie e)))
        by (rewrite !length_app; reflexivity).
      symmetry; apply le32_u32_bytes; lia. }
  unfold reported, reported_mask.
  destruct (negb (Z.land (ev_mask e) IN_CREATE =? 0) && (Z.land (ev_mask e) IN_ISDIR =? 0));
    [|reflexivity].
  do 2 f_equal. rewrite length_app, length_encode_event. unfold INOTIFY_EVENT_SZ. lia.
Qed.

Lemma name_at_event (p tl : list Z) (e : ino_event) :
  name_at (p ++ encode_event e ++ tl)
    (Z.of_nat (length p) + INOTIFY_EVENT_SZ, Z.of_nat (length (ev_name e))) = ev_name e.
Proof.
  unfold name_at; cbn [fst snd]. rewrite Nat2Z.id.
  replace (Z.to_nat (Z.of_nat (length p) + INOTIFY_EVENT_SZ))
    with (length (p ++ u32_bytes (ev_wd e) ++ u32_bytes (ev_mask e) ++
                  u32_bytes (ev_cookie e) ++ u32_bytes (Z.of_nat (length (ev_name e)))))
    by (rewrite !length_app, !length_u32_bytes; unfold INOTIFY_EVENT_SZ; lia).
  assert (Hbuf : p ++ encode_event e ++ tl =
                 (p ++ u32_bytes (ev_wd e) ++ u32_bytes (ev_mask e) ++
                  u32_bytes (ev_cookie e) ++ u32_bytes (Z.of_nat (length (ev_name e)))) ++
                 ev_name e ++ tl).
  { unfold encode_event. rewrite <- !app_assoc. reflexivity. }
  rewrite Hbuf, skipn_app, skipn_all, Nat.sub_diag, skipn_O, app_nil_l.
  rewrite firstn_app, firstn_all, Nat.sub_diag, firstn_O, app_nil_r.
  reflexivity.
Qed.

Lemma scan_block_step (p b tl : list Z) (nr : Z) (f : nat) :
  quiet_block b -> (length (p ++ b ++ tl) <= 1024)%nat ->
  notify_scan (S f) (p ++ b ++ tl) nr (Z.of_nat (length p)) =
  if INOTIFY_EVENT_SZ <? Identity.wrapu64 (nr - Z.of_nat (length p))
  then notify_scan f (p ++ b ++ tl) nr (Z.of_nat (length p) + INOTIFY_EVENT_SZ)
  else Some [].
Proof.
  intros (Hlb & Hq) Hl. rewrite !length_app, Hlb in Hl. cbn [notify_scan].
  destruct (INOTIFY_EVENT_SZ <? _); [|reflexivity].
  replace (INBUF_SZ <? _) with false
    by (symmetry; apply Z.ltb_ge; unfold INBUF_SZ, INOTIFY_EVENT_SZ; lia).
  rewrite Nat2Z.id, le32_app by lia. unfold reported_mask in Hq. rewrite Hq.
  reflexivity.
Qed.

Lemma encode_events_nil (evs : list ino_event) :
  length (encode_events evs) = 0%nat -> evs = [].
Proof.
  destruct evs as [|e evs]; [reflexivity|].
  unfold encode_events; cbn [flat_map]. rewrite length_app, length_encode_event.
  lia.
Qed.

Lemma length_concat_blocks (bs : list (list Z)) :
  Forall quiet_block bs -> length (concat bs) = (16 * length bs)%nat.
Proof.
  induction 1 as [|b bs (Hb & _) _ IH]; [reflexivity|].
  cbn [concat length]. rewrite length_app, Hb, IH. lia.
Qed.

Ltac notify_len :=
  rewrite ?length_app, ?length_encode_event in *; unfold INOTIFY_EVENT_SZ, INBUF_SZ in *;
  lia.

Lemma notify_scan_mixed : forall evs p rest fuel,
  Forall (fun e => file_created e \/ dir_created e) evs ->
  let buf := p ++ encode_events evs ++ rest in
  length buf = 1024%nat -> (length (encode_events evs) < 16 * fuel)%nat ->
  exists r, notify_scan fuel buf (Z.of_nat (length (p ++ encode_events evs)))
              (Z.of_nat (length p)) = Some r /\
            map (name_at buf) r = map ev_name (filter reported evs).
Proof.
  induction evs as [|e evs IH]; intros p rest fuel Hf buf Hl Hfuel; cbn zeta in *.
  - destruct fuel as [|fuel]; [cbn in Hfuel; lia|].
    exists []. cbn [notify_scan]. rewrite app_nil_r, Z.sub_diag.
    split; reflexivity.
  - inversion Hf as [|e' evs' He Hf']; subst e' evs'.
    destruct fuel as [|fuel]; [cbn in Hfuel; lia|].
    assert (Hb : p ++ encode_events (e :: evs) ++ rest =
                 p ++ encode_event e ++ (encode_events evs ++ rest)).
    { unfold encode_events at 1. cbn [flat_map]. fold (encode_events evs).
      rewrite <- app_assoc. reflexivity. }
    assert (Hp' : p ++ encode_events (e :: evs) = (p ++ encode_event e) ++ encode_events evs).
    { unfold encode_events at 1. cbn [flat_map]. fold (encode_events evs). apply app_assoc. }
    assert (Hle : length (encode_events (e :: evs)) =
                  (16 + length (ev_name e) + length (encode_events evs))%nat).
    { unfold encode_events at 1. cbn [flat_map]. fold (encode_events evs).
      rewrite length_app, length_encode_event. lia. }
    assert (Hlb : length buf = (length p + length (encode_events (e :: evs)) + length rest)%nat)
      by (subst buf; rewrite !length_app; lia).
    subst buf. rewrite Hb in Hl |- *.
    destruct He as [(Hm & Hc & Hd & Hn & Hlen) | (Hm & Hd & Hlen & bs & Hbs & Hname)].
    + (* a file creation: reported, then the parse goes on after its name *)
      assert (Hne : (1 <= length (ev_name e))%nat)
        by (destruct (ev_name e); cbn; [congruence | lia]).
      rewrite scan_header_step;
        [| exact Hm | exact Hlen
| notify_len | notify_len].
      replace (reported e) with true
        by (unfold reported, reported_mask; rewrite (proj2 (Z.eqb_neq _ _) Hc), Hd;
            reflexivity).
      destruct (IH (p ++ encode_event e) rest fuel Hf') as (r & Hr & Hmap).
      { rewrite <- app_assoc. exact Hl. }
      { lia. }
      rewrite <- !app_assoc in Hr, Hmap. rewrite Hp', Hr.
      cbn [option_map]. eexists; split; [reflexivity|].
      cbn [map filter]. replace (reported e) with true
        by (unfold reported, reported_mask; rewrite (proj2 (Z.eqb_neq _ _) Hc), Hd;
            reflexivity).
      cbn [map]. rewrite Hmap, name_at_event. reflexivity.
    + (* a directory creation: not reported, its name read as headers *)
      assert (Hrep : reported e = false)
        by (unfold reported, reported_mask;
            rewrite (proj2 (Z.eqb_neq _ (0)) Hd), andb_false_r; reflexivity).
      pose proof (length_concat_blocks bs Hbs) as Hcb.
      rewrite <- Hname in Hcb.
      destruct (Nat.eq_dec (length bs) 0) as [H0|H0].
      * (* an empty name: the header alone *)
        destruct bs; [|cbn in H0; lia]. cbn in Hname.
        assert (Hn0 : length (ev_name e) = 0%nat) by (rewrite Hname; reflexivity).
        destruct (Nat.eq_dec (length (encode_events evs)) 0) as [He0|He0].
        -- apply encode_events_nil in He0. subst evs.
           cbn [notify_scan]. rewrite wrapu64_small
             by (rewrite Hp', !length_app, length_encode_event; cbn; lia).
           replace (INOTIFY_EVENT_SZ <? _) with false.
           2:{ symmetry; apply Z.ltb_ge. rewrite Hp', !length_app, length_encode_event.
               cbn. unfold INOTIFY_EVENT_SZ. lia. }
           exists []. cbn. rewrite Hrep. split; reflexivity.
        -- rewrite scan_header_step;
             [| exact Hm | exact Hlen
| notify_len | notify_len].
           rewrite Hrep.
           destruct (IH (p ++ encode_event e) rest fuel Hf') as (r & Hr & Hmap).
           { rewrite <- app_assoc. exact Hl. }
           { lia. }
           rewrite <- !app_assoc in Hr, Hmap. rewrite Hp'.
           replace (Z.of_nat (length p) + INOTIFY_EVENT_SZ)
             with (Z.of_nat (length (p ++ encode_event e)))
             by (rewrite length_app, length_encode_event, Hn0; unfold INOTIFY_EVENT_SZ; lia).
           rewrite Hr. eexists; split; [reflexivity|].
           cbn [filter]. rewrite Hrep. exact Hmap.
      * rewrite scan_header_step;
          [| exact Hm | exact Hlen
| notify_len | notify_len].
        rewrite Hrep. cbn [filter]. rewrite Hrep.
        set (hd := u32_bytes (ev_wd e) ++ u32_bytes (ev_mask e) ++
                   u32_bytes (ev_cookie e) ++ u32_bytes (Z.of_nat (length (ev_name e)))).
        assert (Hee : encode_event e = hd ++ concat bs)
          by (unfold encode_event, hd; rewrite Hname, <- !app_assoc; reflexivity).
        assert (Hhd : length hd = 16%nat) by reflexivity.
        rewrite Hp', Hee.
        replace (Z.of_nat (length p) + INOTIFY_EVENT_SZ) with (Z.of_nat (length (p ++ hd)))
          by (rewrite length_app, Hhd; unfold INOTIFY_EVENT_SZ; lia).
        replace (p ++ (hd ++ concat bs) ++ encode_events evs ++ rest)
          with ((p ++ hd) ++ concat bs ++ encode_events evs ++ rest)
          by (rewrite <- !app_assoc; reflexivity).
        replace ((p ++ hd ++ concat bs) ++ encode_events evs)
          with ((p ++ hd) ++ concat bs ++ encode_events evs)
          by (rewrite <- !app_assoc; reflexivity).
        assert (Hl2 : length ((p ++ hd) ++ concat bs ++ encode_events evs ++ rest) = 1024%nat).
        { rewrite <- Hl, Hee. rewrite <- !app_assoc. reflexivity. }
        assert (Hf2 : (length (concat bs) + length (encode_events evs) < 16 * fuel)%nat).
        { rewrite Hname in Hle. lia. }
        clear Hb Hp' Hle Hlb Hl Hfuel Hee Hname Hcb H0.
        revert Hl2 Hf2. generalize (p ++ hd) as q. generalize fuel as fl.
        induction Hbs as [|b bs (Hbl & Hbq) Hbs IHbs]; intros fl q Hl2 Hf2.
        -- cbn [concat] in *. rewrite !app_nil_l in *.
           apply (IH q rest fl Hf' Hl2 Hf2).
        -- destruct fl as [|fl]; [cbn [concat] in Hf2; rewrite length_app in Hf2; lia|].
           cbn [concat]. rewrite <- !app_assoc.
           rewrite (scan_block_step q b); [| split; assumption | rewrite <- Hl2; cbn [concat];
                                             rewrite <- !app_assoc; reflexivity].
           destruct (INOTIFY_EVENT_SZ <? _) eqn:Hgo.
           ++ replace (Z.of_nat (length q) + INOTIFY_EVENT_SZ)
                with (Z.of_nat (length (q ++ b)))
                by (rewrite length_app, Hbl; unfold INOTIFY_EVENT_SZ; lia).
              replace (q ++ b ++ concat bs ++ encode_events evs ++ rest)
                with ((q ++ b) ++ concat bs ++ encode_events evs ++ rest)
                by (rewrite <- !app_assoc; reflexivity).
              replace (length (q ++ b ++ concat bs ++ encode_events evs))
                with (length ((q ++ b) ++ concat bs ++ encode_events evs))
                by (rewrite <- !app_assoc; reflexivity).
              apply IHbs.
              ** rewrite <- Hl2. cbn [concat]. rewrite <- !app_assoc. reflexivity.
              ** cbn [concat] in Hf2. rewrite length_app, Hbl in Hf2. lia.
           ++ apply Z.ltb_ge in Hgo.
              assert (Hq : (length (q ++ b ++ concat bs ++ encode_events evs) <= 1024)%nat).
              { rewrite <- Hl2. cbn [concat]. rewrite !length_app. lia. }
              rewrite wrapu64_small in Hgo by (rewrite length_app in Hq |- *; lia).
              rewrite !length_app, Hbl in Hgo. unfold INOTIFY_EVENT_SZ in Hgo.
              assert (Hz : length (encode_events evs) = 0%nat) by lia.
              apply encode_events_nil in Hz. subst evs.
              exists []. split; reflexivity.
Qed.

(** X18: a record that is not a file creation (a directory creation)
    advances the loop by the header size only, so its name bytes are read
    as further headers.  When the name is made of 16-byte blocks none of
    which reads as a file creation, the parse falls back in step: every
    file-creation record of the read is still passed to [discovered], in
    order and with its own name, and no other name is. *)
Theorem notify_events_skip_dirs (evs : list ino_event) (rest : list Z) :
  Forall (fun e => file_created e \/ dir_created e) evs ->
  length (encode_events evs ++ rest) = 1024%nat ->
  exists r, notify_events (encode_events evs ++ rest)
              (Z.of_nat (length (encode_events evs))) = Some r /\
            map (name_at (encode_events evs ++ rest)) r =
            map ev_name (filter reported evs).
Proof.
  intros Hf Hl. unfold notify_events.
  replace (Z.of_nat (length (encode_events evs)) =? -1) with false
    by (symmetry; apply Z.eqb_neq; lia).
  rewrite length_app in Hl.
  apply (notify_scan_mixed evs [] rest 65 Hf); [cbn; rewrite length_app; lia | lia].
Qed.

(** The creation of [/dev/input/by-path] between two event nodes. *)
Definition sample_mixed : list ino_event :=
  [mk_ino_event 1 IN_CREATE 0 [101; 118; 101; 110; 116; 51; 0; 0];
   mk_ino_event 1 (IN_CREATE + IN_ISDIR) 0
     [98; 121; 45; 112; 97; 116; 104; 0; 0; 0; 0; 0; 0; 0; 0; 0];
   mk_ino_event 1 IN_CREATE 0 [101; 118; 101; 110; 116; 52; 0; 0]].

Lemma notify_events_skip_dirs_witness :
  exists r, notify_events (encode_events sample_mixed ++ repeat 0 944)
              (Z.of_nat (length (encode_events sample_mixed))) = Some r /\
            map (name_at (encode_events sample_mixed ++ repeat 0 944)) r =
            map ev_name (filter reported sample_mixed).
Proof.
  apply notify_events_skip_dirs; [|vm_compute; reflexivity].
  apply Forall_cons; [left | apply Forall_cons; [right | apply Forall_cons; [left | apply Forall_nil]]].
  - unfold file_created; cbn.
    repeat split; first [lia | discriminate | vm_compute; discriminate].
  - unfold dir_created; cbn.
    split; [lia|]. split; [vm_compute; discriminate|]. split; [lia|].
    exists [[98; 121; 45; 112; 97; 116; 104; 0; 0; 0; 0; 0; 0; 0; 0; 0]].
    split; [repeat constructor; vm_compute; reflexivity | reflexivity].
  - unfold file_created; cbn.
    repeat split; first [lia | discriminate | vm_compute; discriminate].
Defined.

End NotifyProofs.
